(** * prices.py: quote, history, info and batch-quote fetchers

    A shallow embedding of [src/prices.py].  The four functions of the module
    are call-throughs to an external market-data client ([yfinance]); the
    client is a parameter of the development (class [Provider]) and every
    function runs in a small state-and-exception monad over a [World] that
    holds the provider's state together with the trace of the queries sent
    so far. *)

From Stdlib Require Import Floats.PrimFloat ZArith.
From stdpp Require Import base list strings gmap pretty.


(** ** Python values, exceptions and results *)

(** The values found in the provider's info bag ([Dict[str, Any]]). *)
Inductive PyValue : Type :=
  | PyNone
  | PyStr (s : string)
  | PyInt (z : Z)
  | PyFloat (f : float).

Inductive Exception : Type :=
  | KeyError (key : string)
  | IndexError
  | ValueError (what : string)
  | ProviderFailure (what : string).

Inductive Result (A : Type) : Type :=
  | Ok (a : A)
  | Raise (e : Exception).
Arguments Ok {A} a.
Arguments Raise {A} e.

(** ** Python dictionaries

    A [dict] keeps its keys unique and in insertion order; assigning to a
    key that is already present replaces the value and leaves the key where
    it is. *)
Module PyDict.
Section Dict.
Context {K V : Type} `{EqDecision K}.

Definition t : Type := list (K * V).

Definition empty : t := [].

(** [d[k] = v] *)
Fixpoint setitem (d : t) (k : K) (v : V) : t :=
  match d with
  | [] => [(k, v)]
  | (k', v') :: d' =>
      if decide (k' = k) then (k', v) :: d' else (k', v') :: setitem d' k v
  end.

(** The stored value of [k], if [k] is a key. *)
Fixpoint lookup (d : t) (k : K) : option V :=
  match d with
  | [] => None
  | (k', v') :: d' => if decide (k' = k) then Some v' else lookup d' k
  end.

(** [d.get(k, default)] *)
Definition get (d : t) (k : K) (default : V) : V :=
  match lookup d k with
  | Some v => v
  | None => default
  end.

(** [list(d.keys())] *)
Definition keys (d : t) : list K := map fst d.

(** A dictionary display [{k1: v1, ..., kn: vn}]: the items are stored
    from left to right. *)
Definition display (items : list (K * V)) : t :=
  foldl (fun d kv => setitem d (fst kv) (snd kv)) empty items.
End Dict.
Arguments t : clear implicits.
End PyDict.

(** ** The provider's tables

    [Ticker.history] answers with a pandas [DataFrame]: column labels and
    one row per period, indexed by a timestamp.  A cell that a row lacks
    reads as NaN.  Of pandas, the three operations [prices.py] uses are
    modelled: [.empty], column access and [.iloc]. *)
Definition Timestamp : Type := Z.

Record Row : Type := mkRow {
  row_index : Timestamp;
  row_cells : PyDict.t string float
}.

Record DataFrame : Type := mkDataFrame {
  columns : list string;
  rows : list Row
}.

Definition Series : Type := list (Timestamp * float).

(** [df.empty]: some axis has length 0. *)
Definition df_empty (df : DataFrame) : bool :=
  Nat.eqb (length (columns df)) 0 || Nat.eqb (length (rows df)) 0.

Definition cell (r : Row) (label : string) : float :=
  PyDict.get (row_cells r) label nan.

(** [df[label]] *)
Definition df_getitem (df : DataFrame) (label : string) : Result Series :=
  if decide (label ∈ columns df)
  then Ok (map (fun r => (row_index r, cell r label)) (rows df))
  else Raise (KeyError label).

(** [s.iloc[i]], with Python's negative positions. *)
Definition iloc (s : Series) (i : Z) : Result float :=
  let n := Z.of_nat (length s) in
  let j := if (i <? 0)%Z then (i + n)%Z else i in
  if ((0 <=? j) && (j <? n))%Z
  then match s !! Z.to_nat j with
       | Some (_, v) => Ok v
       | None => Raise IndexError
       end
  else Raise IndexError.

(** The data model's Historical Series: every record carries
    open/high/low/close/volume. *)
Definition ohlcv : list string := ["Open"; "High"; "Low"; "Close"; "Volume"].

Definition is_ohlcv (df : DataFrame) : Prop :=
  ∀ label, label ∈ ohlcv → label ∈ columns df.

(** ** The market-data provider

    The external collaborator: the making of a handle on a symbol, which
    can refuse the symbol before any query is sent (an empty name is a
    [ValueError]), and the two queries of a handle, a period-scoped
    history query and a descriptive-info query.  Each of the three may
    fail and may depend on, and change, the provider's own state (live
    quotes move between calls). *)
Class Provider : Type := {
  PState : Type;
  provider_ticker :
    string → PState → Result unit * PState;
  provider_history :
    string → string → PState → Result DataFrame * PState;
  provider_info :
    string → PState → Result (PyDict.t string PyValue) * PState
}.

Inductive Call : Type :=
  | HistoryCall (ticker period : string)
  | InfoCall (ticker : string).

Section Prices.
Context {P : Provider}.

Record World : Type := mkWorld {
  provider : PState;
  calls : list Call
}.

(** Computations that may call the provider and may raise. *)
Definition IO (A : Type) : Type := World → Result A * World.

Definition ret {A} (a : A) : IO A := fun w => (Ok a, w).

Definition bind {A B} (m : IO A) (k : A → IO B) : IO B :=
  fun w =>
    match m w with
    | (Ok a, w') => k a w'
    | (Raise e, w') => (Raise e, w')
    end.

Definition raise {A} (e : Exception) : IO A := fun w => (Raise e, w).

Definition lift {A} (r : Result A) : IO A := fun w => (r, w).

Local Notation "x <- m ;; k" := (bind m (fun x => k))
  (at level 100, m at next level, right associativity).

(** A handle on a symbol. *)
Record Ticker : Type := mkTicker { symbol : string }.

(** [yf.Ticker(ticker)]: the handle is made before any query, and the
    client can raise instead of making it; in that case what follows in
    the caller does not run.  Making a handle is not one of the two
    queries and is not entered in [calls]. *)
Definition yf_Ticker (ticker : string) : IO Ticker :=
  fun w =>
    let '(r, p) := provider_ticker ticker (provider w) in
    (match r with
     | Ok _ => Ok (mkTicker ticker)
     | Raise e => Raise e
     end, mkWorld p (calls w)).

(** [stock.history(period=period)] *)
Definition history (stock : Ticker) (period : string) : IO DataFrame :=
  fun w =>
    let '(r, p) := provider_history (symbol stock) period (provider w) in
    (r, mkWorld p (calls w ++ [HistoryCall (symbol stock) period])).

(** [stock.info] *)
Definition info (stock : Ticker) : IO (PyDict.t string PyValue) :=
  fun w =>
    let '(r, p) := provider_info (symbol stock) (provider w) in
    (r, mkWorld p (calls w ++ [InfoCall (symbol stock)])).

(** *** The four functions of [prices.py] *)

Definition get_current_price (ticker : string) : IO (option float) :=
  stock <- yf_Ticker ticker ;;
  data <- history stock "1d" ;;
  if negb (df_empty data) then
    close <- lift (df_getitem data "Close") ;;
    current_price <- lift (iloc close (-1)) ;;
    ret (Some current_price)
  else
    ret None.

(** [period] is an optional argument; left out, it is ['1mo']. *)
Definition get_historical_prices
    (ticker : string) (period : option string) : IO DataFrame :=
  let period := default "1mo" period in
  stock <- yf_Ticker ticker ;;
  historical_data <- history stock period ;;
  ret historical_data.

(** The placeholder ['N/A'] of the eight [info.get] calls. *)
Definition NA : PyValue := PyStr "N/A".

Definition get_stock_info (ticker : string)
    : IO (PyDict.t string PyValue) :=
  stock <- yf_Ticker ticker ;;
  info <- info stock ;;
  ret (PyDict.display
    [ ("Symbol", PyStr ticker);
      ("Company Name", PyDict.get info "longName" NA);
      ("Current Price", PyDict.get info "currentPrice" NA);
      ("Previous Close", PyDict.get info "previousClose" NA);
      ("Open", PyDict.get info "open" NA);
      ("Day High", PyDict.get info "dayHigh" NA);
      ("Day Low", PyDict.get info "dayLow" NA);
      ("Volume", PyDict.get info "volume" NA);
      ("Market Cap", PyDict.get info "marketCap" NA) ]).

(** The body of [for ticker in tickers: ...], with the dictionary built
    so far. *)
Fixpoint for_tickers (tickers : list string)
    (prices : PyDict.t string (option float))
    : IO (PyDict.t string (option float)) :=
  match tickers with
  | [] => ret prices
  | ticker :: rest =>
      price <- get_current_price ticker ;;
      for_tickers rest (PyDict.setitem prices ticker price)
  end.

Definition get_multiple_stocks (tickers : list string)
    : IO (PyDict.t string (option float)) :=
  for_tickers tickers PyDict.empty.

End Prices.

(** ** Reference notions used by the statements *)

(** The distinct elements of a list, each at the place of its first
    occurrence. *)
Fixpoint first_occurrences (l : list string) : list string :=
  match l with
  | [] => []
  | x :: l' => x :: filter (fun y => y ≠ x) (first_occurrences l')
  end.

(** The last record of a table: its timestamp and its cells by column
    label. *)
Definition last_record (df : DataFrame) : option Row := last (rows df).

(** The request [get_current_price] sends for a symbol. *)
Definition quote_call (ticker : string) : Call := HistoryCall ticker "1d".

(** The eight keys of the info mapping that are read from the provider,
    each with the provider field it is read from. *)
Definition provider_fields : list (string * string) :=
  [ ("Company Name", "longName");
    ("Current Price", "currentPrice");
    ("Previous Close", "previousClose");
    ("Open", "open");
    ("Day High", "dayHigh");
    ("Day Low", "dayLow");
    ("Volume", "volume");
    ("Market Cap", "marketCap") ].

Definition stock_info_keys : list string :=
  [ "Symbol"; "Company Name"; "Current Price"; "Previous Close"; "Open";
    "Day High"; "Day Low"; "Volume"; "Market Cap" ].

(** ** Two concrete providers *)

(** What the client says to a symbol when asked for a handle: the empty
    name is refused. *)
Definition check_name (ticker : string) : Result unit :=
  if String.eqb ticker "" then Raise (ValueError "Empty ticker name")
  else Ok tt.

(** A provider that replays a script: the n-th history query is answered
    with the n-th entry, whatever the symbol, and fails once the script is
    used up.  It knows no descriptive info. *)
Definition script_provider : Provider := {|
  PState := list (Result DataFrame);
  provider_ticker := fun ticker s => (check_name ticker, s);
  provider_history := fun _ _ s =>
    match s with
    | [] => (Raise (ProviderFailure "script exhausted"), [])
    | r :: s' => (r, s')
    end;
  provider_info := fun _ s => (Raise (ProviderFailure "no info"), s)
|}.

(** A provider without state: answers are looked up by symbol. *)
Definition table_provider
    (quotes : string → string → Result DataFrame)
    (bags : string → Result (PyDict.t string PyValue)) : Provider := {|
  PState := unit;
  provider_ticker := fun ticker s => (check_name ticker, s);
  provider_history := fun ticker period s => (quotes ticker period, s);
  provider_info := fun ticker s => (bags ticker, s)
|}.

(** One trading day as a table row, and a table of such days. *)
Definition day (ts : Timestamp) (o h l c v : float) : Row :=
  mkRow ts [("Open", o); ("High", h); ("Low", l); ("Close", c); ("Volume", v)].

Definition table (days : list Row) : DataFrame := mkDataFrame ohlcv days.

Definition one_day (close : float) : DataFrame :=
  table [day 0%Z close close close close 1000%float].

(** What the provider answers for an unknown symbol: the columns, no row. *)
Definition no_data : DataFrame := table [].

(** *** Scenarios *)

Definition five_days : DataFrame :=
  table [ day 1%Z 10 12 9 11 1000; day 2%Z 11 13 10 12 1100;
          day 3%Z 12 14 11 13 1200; day 4%Z 13 15 12 14 1300;
          day 5%Z 14 16 13 15 1400 ]%float.

(** Successive quotes 10, then 12. *)
Definition quotes_10_12 : list (Result DataFrame) :=
  [Ok (one_day 10); Ok (one_day 12)].

(** A quote, an unknown symbol, a later quote. *)
Definition quotes_10_none_12 : list (Result DataFrame) :=
  [Ok (one_day 10); Ok no_data; Ok (one_day 12)].

(** A quote, a provider failure, a quote that is never asked for. *)
Definition quotes_10_fail_12 : list (Result DataFrame) :=
  [Ok (one_day 10); Raise (ProviderFailure "timeout"); Ok (one_day 12)].

(** An info bag with a name and a price, a symbol in lower case, and
    nothing else. *)
Definition apple_bag : PyDict.t string PyValue :=
  [ ("symbol", PyStr "aapl"); ("longName", PyStr "Apple Inc.");
    ("currentPrice", PyFloat 189.5) ].

(** Quotes that do not move: 10 for AAPL, 12 for MSFT, no data for any
    other symbol. *)
Definition quote_table (ticker period : string) : Result DataFrame :=
  if String.eqb ticker "AAPL" then Ok (one_day 10)
  else if String.eqb ticker "MSFT" then Ok (one_day 12)
  else Ok no_data.

Definition apple_provider : Provider :=
  table_provider quote_table (fun _ => Ok apple_bag).

(** The world of a scripted provider: what is left of the script, and the
    requests sent so far. *)
Definition script_world (script : list (Result DataFrame)) (sent : list Call)
    : World (P:=script_provider) :=
  mkWorld (P:=script_provider) script sent.

Definition apple_world (sent : list Call) : World (P:=apple_provider) :=
  mkWorld (P:=apple_provider) tt sent.

(** ** The demonstration script

    The block under [if __name__ == "__main__":].  It prints to the
    console; how Python and pandas spell a float or a table is not
    modelled and comes in as a parameter. *)
Class Rendering : Type := {
  (** [f"{x:.2f}"] *)
  format_2f : float → string;
  (** [str(x)] of a float *)
  str_float : float → string;
  (** [str(df)] of a table *)
  str_frame : DataFrame → string;
  (** the message of the [KeyError] for a list of labels, given the labels
      asked for and those the table lacks *)
  not_in_index : list string → list string → string
}.

Definition newline : string := String (Ascii.ascii_of_nat 10) EmptyString.

(** ['='*50] *)
Definition rule : string := String.concat "" (replicate 50 "=").

(** [bool(x)] of a float: false for a zero of either sign, true for any
    other value, NaN included. *)
Definition truthy_float (x : float) : bool := negb (PrimFloat.eqb x 0).

(** [d.update(other)] *)
Definition dict_update {K V : Type} `{EqDecision K}
    (d other : PyDict.t K V) : PyDict.t K V :=
  foldl (fun acc kv => PyDict.setitem acc (fst kv) (snd kv)) d other.

Section Script.
Context {P : Provider} {R : Rendering}.

(** [str(value)] of a value of the info mapping. *)
Definition str_value (v : PyValue) : string :=
  match v with
  | PyNone => "None"
  | PyStr s => s
  | PyInt z => pretty z
  | PyFloat f => str_float f
  end.

(** [df[labels]] for a list of labels. *)
Definition df_getitem_list (df : DataFrame) (labels : list string)
    : Result DataFrame :=
  match filter (fun label => label ∉ columns df) labels with
  | [] =>
      Ok (mkDataFrame labels
            (map (fun r =>
                    mkRow (row_index r)
                          (map (fun label => (label, cell r label)) labels))
                 (rows df)))
  | missing => Raise (KeyError (not_in_index labels missing))
  end.

(** The world together with what has been printed, one entry per
    [print]. *)
Record Console : Type := mkConsole {
  world : World;
  stdout : list string
}.

Definition Script (A : Type) : Type := Console → Result A * Console.

Definition sret {A} (a : A) : Script A := fun c => (Ok a, c).

Definition sbind {A B} (m : Script A) (k : A → Script B) : Script B :=
  fun c =>
    match m c with
    | (Ok a, c') => k a c'
    | (Raise e, c') => (Raise e, c')
    end.

(** A call into the module: it works on the world and prints nothing. *)
Definition run {A} (m : IO A) : Script A :=
  fun c =>
    let '(r, w) := m (world c) in (r, mkConsole w (stdout c)).

Definition slift {A} (r : Result A) : Script A := fun c => (r, c).

Definition print (text : string) : Script unit :=
  fun c => (Ok tt, mkConsole (world c) (stdout c ++ [text])).

Local Notation "x <- m ;; k" := (sbind m (fun x => k))
  (at level 100, m at next level, right associativity).
Local Notation "m ;; k" := (sbind m (fun _ => k))
  (at level 100, right associativity).

(** [for x in items: body] *)
Fixpoint for_items {A} (items : list A) (body : A → Script unit)
    : Script unit :=
  match items with
  | [] => sret tt
  | x :: rest => body x ;; for_items rest body
  end.

(** The three [print]s that open each part of the script. *)
Definition banner (title : string) : Script unit :=
  print (newline +:+ rule) ;;
  print title ;;
  print rule.

(** [# Single stock example] *)
Definition single_stock_example (ticker : string) : Script unit :=
  banner ("Current Price for " +:+ ticker) ;;
  current_price <- run (get_current_price ticker) ;;
  match current_price with
  | Some x =>
      if truthy_float x then print ("$" +:+ format_2f x)
      else print "Unable to fetch price"
  | None => print "Unable to fetch price"
  end.

(** [# Detailed stock info] *)
Definition detailed_stock_info (ticker : string) : Script unit :=
  banner ("Detailed Information for " +:+ ticker) ;;
  info <- run (get_stock_info ticker) ;;
  for_items info
    (fun '(key, value) => print (key +:+ ": " +:+ str_value value)).

(** [# Historical data] *)
Definition historical_data (ticker : string) : Script unit :=
  banner ("Historical Prices (Last 5 Days) for " +:+ ticker) ;;
  historical <- run (get_historical_prices ticker (Some "5d")) ;;
  shown <- slift (df_getitem_list historical
                    ["Open"; "High"; "Low"; "Close"; "Volume"]) ;;
  print (str_frame shown).

(** [# Multiple stocks] *)
Definition multiple_stocks (tickers : list string) : Script unit :=
  banner "Multiple Stocks" ;;
  multiple_prices <- run (get_multiple_stocks tickers) ;;
  for_items multiple_prices
    (fun '(ticker, price) =>
       match price with
       | Some x =>
           if truthy_float x
           then print (ticker +:+ ": $" +:+ format_2f x)
           else print (ticker +:+ ": Unable to fetch price")
       | None => print (ticker +:+ ": Unable to fetch price")
       end).

Definition main : Script unit :=
  let ticker := "AAPL" in
  single_stock_example ticker ;;
  detailed_stock_info ticker ;;
  historical_data ticker ;;
  multiple_stocks ["AAPL"; "GOOGL"; "MSFT"; "TSLA"].

End Script.

(** A rendering for the scenarios: every float is spelt the same, and so
    is every table. *)
Definition plain_rendering : Rendering := {|
  format_2f := fun _ => "#.##";
  str_float := fun _ => "#.#";
  str_frame := fun _ => "<table>";
  not_in_index := fun _ missing => String.concat ", " missing
|}.

(** More scenarios: a table without a closing column, a quote of zero. *)
Definition open_only : DataFrame :=
  mkDataFrame ["Open"] [mkRow 0%Z [("Open", 10%float)]].

Definition script_console (script : list (Result DataFrame))
    (sent : list Call) (printed : list string)
    : Console (P:=script_provider) :=
  mkConsole (P:=script_provider) (script_world script sent) printed.

Definition apple_console (sent : list Call) (printed : list string)
    : Console (P:=apple_provider) :=
  mkConsole (P:=apple_provider) (apple_world sent) printed.

(** A provider whose state is the info bag it answers with. *)
Definition bag_provider : Provider := {|
  PState := PyDict.t string PyValue;
  provider_ticker := fun ticker s => (check_name ticker, s);
  provider_history := fun _ _ s => (Ok no_data, s);
  provider_info := fun _ s => (Ok s, s)
|}.

Definition bag_world (bag : PyDict.t string PyValue) (sent : list Call)
    : World (P:=bag_provider) :=
  mkWorld (P:=bag_provider) bag sent.

(** The bag of [apple_bag] with other fields around the same name and
    price. *)
Definition apple_bag_more : PyDict.t string PyValue :=
  [ ("sector", PyStr "Technology"); ("longName", PyStr "Apple Inc.");
    ("symbol", PyStr "AAPL"); ("currentPrice", PyFloat 189.5);
    ("fullTimeEmployees", PyInt 164000) ].

(** A provider that tells the periods apart: a month is five rows here,
    anything else one row. *)
Definition period_table (ticker period : string) : Result DataFrame :=
  if String.eqb period "1mo" then Ok five_days else Ok (one_day 10).

Definition period_provider : Provider :=
  table_provider period_table (fun _ => Ok apple_bag).

Definition period_world (sent : list Call) : World (P:=period_provider) :=
  mkWorld (P:=period_provider) tt sent.

(** The quotes of [quote_table], as prices. *)
Definition fixed_quote (ticker : string) : option float :=
  if String.eqb ticker "AAPL" then Some 10%float
  else if String.eqb ticker "MSFT" then Some 12%float
  else None.

(** *** Reference notions for the script *)

(** What [banner] prints. *)
Definition banner_lines (title : string) : list string :=
  [newline +:+ rule; title; rule].

(** A price that [if price:] takes for false: no price, or a zero. *)
Definition falsy (price : option float) : Prop :=
  price = None ∨ ∃ x, price = Some x ∧ PrimFloat.eqb x 0 = true.

(** The requests of a whole run of the script. *)
Definition main_calls : list Call :=
  [ HistoryCall "AAPL" "1d"; InfoCall "AAPL"; HistoryCall "AAPL" "5d";
    HistoryCall "AAPL" "1d"; HistoryCall "GOOGL" "1d";
    HistoryCall "MSFT" "1d"; HistoryCall "TSLA" "1d" ].

(** ** Dictionaries: assignment, lookup and key order *)

Section DictFacts.
Context {K V : Type} `{EqDecision K}.
Implicit Types (d : PyDict.t K V) (k : K) (v : V).

Lemma keys_setitem d k v :
  PyDict.keys (PyDict.setitem d k v) =
  if decide (k ∈ PyDict.keys d) then PyDict.keys d else PyDict.keys d ++ [k].
Proof.
  induction d as [|[k' v'] d IH]; simpl.
  - done.
  - destruct (decide (k' = k)) as [->|Hne]; simpl.
    + rewrite decide_True by left. done.
    + rewrite IH. destruct (decide (k ∈ PyDict.keys d)) as [Hin|Hnin].
      * rewrite decide_True by (right; done). done.
      * rewrite decide_False; [done|].
        intros [?|?]%elem_of_cons; [congruence|done].
Qed.

Lemma lookup_setitem_eq d k v :
  PyDict.lookup (PyDict.setitem d k v) k = Some v.
Proof.
  induction d as [|[k' v'] d IH]; simpl.
  - by rewrite decide_True.
  - destruct (decide (k' = k)) as [->|Hne]; simpl.
    + by rewrite decide_True.
    + by rewrite decide_False.
Qed.

Lemma lookup_setitem_ne d k k0 v :
  k ≠ k0 → PyDict.lookup (PyDict.setitem d k v) k0 = PyDict.lookup d k0.
Proof.
  intros Hne. induction d as [|[k' v'] d IH]; simpl.
  - by rewrite decide_False.
  - destruct (decide (k' = k)) as [->|Hne']; simpl.
    + by rewrite !decide_False.
    + destruct (decide (k' = k0)); done.
Qed.

Lemma lookup_is_Some d k :
  is_Some (PyDict.lookup d k) ↔ k ∈ PyDict.keys d.
Proof.
  induction d as [|[k' v'] d IH]; simpl.
  - split; [intros [? ?]; done | intros ?%elem_of_nil; done].
  - destruct (decide (k' = k)) as [->|Hne].
    + split; [intros _; left | eauto].
    + rewrite IH. split; [by right|].
      intros [?|?]%elem_of_cons; [congruence|done].
Qed.

Lemma NoDup_keys_setitem d k v :
  NoDup (PyDict.keys d) → NoDup (PyDict.keys (PyDict.setitem d k v)).
Proof.
  intros Hd. rewrite keys_setitem. case_decide; [done|].
  apply NoDup_app. split_and!; [done| |apply NoDup_singleton].
  intros x Hx ->%list_elem_of_singleton. done.
Qed.
End DictFacts.

(** ** First occurrences *)

Lemma filter_all {A} (Q : A → Prop) `{!∀ x, Decision (Q x)} (l : list A) :
  Forall Q l → filter Q l = l.
Proof.
  induction 1 as [|x l Hx Hl IH]; [done|].
  rewrite filter_cons_True by done. by rewrite IH.
Qed.

Lemma elem_of_first_occurrences (l : list string) (x : string) :
  x ∈ first_occurrences l ↔ x ∈ l.
Proof.
  induction l as [|y l IH]; simpl; [done|].
  rewrite !elem_of_cons, list_elem_of_filter, IH.
  destruct (decide (x = y)) as [->|Hne]; [split; intros; by left|].
  split; [intros [?|[_ ?]]; [by left|by right]|].
  intros [?|?]; [by left|by right].
Qed.

Lemma NoDup_first_occurrences (l : list string) :
  NoDup (first_occurrences l).
Proof.
  induction l as [|y l IH]; simpl; [constructor|].
  constructor; [|by apply NoDup_filter].
  rewrite list_elem_of_filter. intros [Hne _]. by apply Hne.
Qed.

Lemma first_occurrences_NoDup (l : list string) :
  NoDup l → first_occurrences l = l.
Proof.
  induction 1 as [|y l Hy Hl IH]; simpl; [done|].
  rewrite IH. f_equal. apply filter_all, Forall_forall.
  intros x Hx ->. done.
Qed.

(** ** Series positions *)

Lemma iloc_last (s : Series) (ts : Timestamp) (v : float) :
  last s = Some (ts, v) → iloc s (-1) = Ok v.
Proof.
  intros Hlast. unfold iloc.
  assert (Hlen : length s ≠ 0) by (intros Hz; destruct s; done).
  assert (Hpos : Z.to_nat (-1 + Z.of_nat (length s)) = pred (length s)) by lia.
  cbv zeta. change (-1 <? 0)%Z with true. cbv iota.
  rewrite Hpos. unfold Series in *. rewrite <- last_lookup, Hlast.
  destruct (Z.leb_spec 0 (-1 + Z.of_nat (length s))) as [_|?]; [|lia].
  destruct (Z.ltb_spec (-1 + Z.of_nat (length s)) (Z.of_nat (length s)))
    as [_|?]; [done|lia].
Qed.

Lemma last_map {A B} (f : A → B) (l : list A) :
  last (map f l) = option_map f (last l).
Proof.
  induction l as [|x [|y l] IH]; [done..|].
  change (last (map f (y :: l)) = option_map f (last (y :: l))). apply IH.
Qed.

Lemma df_empty_false (df : DataFrame) :
  df_empty df = false → ∃ r, last_record df = Some r.
Proof.
  unfold df_empty, last_record. intros [_ Hrows]%orb_false_elim.
  destruct (last (rows df)) as [r|] eqn:Hlast; [by exists r|].
  apply last_None in Hlast. rewrite Hlast in Hrows. done.
Qed.

Section Fetchers.
Context {P : Provider}.
Implicit Types (w : World) (ticker period : string) (stock : Ticker).

(** *** Handles *)

(** A handle that was made is the handle of the symbol asked for, and
    making it sent no query. *)
Lemma yf_Ticker_Ok ticker w stock w0 :
  yf_Ticker ticker w = (Ok stock, w0) →
  stock = mkTicker ticker ∧ calls w0 = calls w.
Proof.
  unfold yf_Ticker.
  destruct (provider_ticker ticker (provider w)) as [[[]|e] p]; [|done].
  by intros [= <- <-].
Qed.

Lemma yf_Ticker_calls ticker w :
  calls (snd (yf_Ticker ticker w)) = calls w.
Proof.
  unfold yf_Ticker. by destruct (provider_ticker ticker (provider w)).
Qed.

Lemma history_calls stock period w :
  calls (snd (history stock period w)) =
  calls w ++ [HistoryCall (symbol stock) period].
Proof.
  unfold history.
  by destruct (provider_history (symbol stock) period (provider w)).
Qed.

Lemma info_calls stock w :
  calls (snd (info stock w)) = calls w ++ [InfoCall (symbol stock)].
Proof.
  unfold info. by destruct (provider_info (symbol stock) (provider w)).
Qed.

(** *** Quote Fetcher *)

Lemma get_current_price_history ticker w :
  get_current_price ticker w =
  match yf_Ticker ticker w with
  | (Ok stock, w0) =>
      match history stock "1d" w0 with
      | (Ok data, w') =>
          if df_empty data then (Ok None, w')
          else match df_getitem data "Close" with
               | Ok close =>
                   match iloc close (-1) with
                   | Ok current_price => (Ok (Some current_price), w')
                   | Raise e => (Raise e, w')
                   end
               | Raise e => (Raise e, w')
               end
      | (Raise e, w') => (Raise e, w')
      end
  | (Raise e, w0) => (Raise e, w0)
  end.
Proof.
  unfold get_current_price, bind, ret, lift.
  destruct (yf_Ticker ticker w) as [[stock|e] w0]; [|done].
  destruct (history _ _ w0) as [[data|e] w']; [|done].
  destruct (df_empty data); simpl; [done|].
  destruct (df_getitem data "Close") as [close|e]; [|done].
  destruct (iloc close (-1)); done.
Qed.

(** A quote fetch that gets as far as its handle leaves the world of its
    one query. *)
Lemma get_current_price_world ticker w stock w0 :
  yf_Ticker ticker w = (Ok stock, w0) →
  snd (get_current_price ticker w) = snd (history stock "1d" w0).
Proof.
  intros Hstock. rewrite get_current_price_history, Hstock.
  destruct (history _ _ w0) as [[data|e] w']; [|done].
  destruct (df_empty data); [done|].
  destruct (df_getitem data "Close") as [close|e]; [|done].
  by destruct (iloc close (-1)).
Qed.

(** A quote fetch that returns has sent its one query. *)
Lemma get_current_price_calls ticker w price w' :
  get_current_price ticker w = (Ok price, w') →
  calls w' = calls w ++ [quote_call ticker].
Proof.
  intros Hrun.
  destruct (yf_Ticker ticker w) as [[stock|e] w0] eqn:Hstock.
  - pose proof (get_current_price_world _ _ _ _ Hstock) as Hw.
    rewrite Hrun in Hw. simpl in Hw. rewrite Hw, history_calls.
    destruct (yf_Ticker_Ok _ _ _ _ Hstock) as [-> ->]. done.
  - rewrite get_current_price_history, Hstock in Hrun. done.
Qed.

(** X2. A table with rows and columns, none of them labelled ["Close"],
    is not what the quote fetcher expects: the column access raises
    [KeyError "Close"], at the world the query left. *)
Lemma get_current_price_no_close ticker w stock w0 data w' :
  yf_Ticker ticker w = (Ok stock, w0) →
  history stock "1d" w0 = (Ok data, w') →
  df_empty data = false →
  "Close" ∉ columns data →
  get_current_price ticker w = (Raise (KeyError "Close"), w').
Proof.
  intros Hstock Hhist Hne Hcol.
  rewrite get_current_price_history, Hstock, Hhist, Hne.
  unfold df_getitem. by rewrite decide_False.
Qed.

(** C2. When the handle of a ticker is made and its one-day history
    query answers with a non-empty series that has a closing column,
    [get_current_price] returns exactly the closing value of the last
    record of that series. *)
Theorem get_current_price_last_close ticker w stock w0 data w' :
  yf_Ticker ticker w = (Ok stock, w0) →
  history stock "1d" w0 = (Ok data, w') →
  df_empty data = false →
  "Close" ∈ columns data →
  ∃ r, last_record data = Some r ∧
       get_current_price ticker w = (Ok (Some (cell r "Close")), w').
Proof.
  intros Hstock Hhist Hne Hcol.
  destruct (df_empty_false data Hne) as [r Hr]. exists r. split; [done|].
  rewrite get_current_price_history, Hstock, Hhist, Hne.
  unfold df_getitem. rewrite decide_True by done.
  erewrite iloc_last; [done|].
  rewrite last_map. unfold last_record in Hr. by rewrite Hr.
Qed.

(** C3. When the handle of a ticker is made and its one-day history
    query answers with an empty series, [get_current_price] returns
    [None]: it does not raise, and the result is no number, so no zero
    stands for "no data". *)
Theorem get_current_price_empty ticker w stock w0 data w' :
  yf_Ticker ticker w = (Ok stock, w0) →
  history stock "1d" w0 = (Ok data, w') →
  df_empty data = true →
  get_current_price ticker w = (Ok None, w') ∧
  (∀ e, fst (get_current_price ticker w) ≠ Raise e) ∧
  (∀ price, fst (get_current_price ticker w) ≠ Ok (Some price)).
Proof.
  intros Hstock Hhist Hempty.
  assert (Hres : get_current_price ticker w = (Ok None, w'))
    by (by rewrite get_current_price_history, Hstock, Hhist, Hempty).
  rewrite Hres. split_and!; [done|intros e He|intros price He]; done.
Qed.

(** *** History Fetcher *)

Lemma get_historical_prices_history ticker (arg : option string) w :
  get_historical_prices ticker arg w =
  match yf_Ticker ticker w with
  | (Ok stock, w0) => history stock (default "1mo" arg) w0
  | (Raise e, w0) => (Raise e, w0)
  end.
Proof.
  unfold get_historical_prices, bind, ret.
  destruct (yf_Ticker ticker w) as [[stock|e] w0]; [|done].
  by destruct (history _ _ w0) as [[data|e] w'].
Qed.

(** C6. For every ticker and period token, [get_historical_prices]
    returns the table the history query of the ticker's handle answered
    with, unmodified: the same columns and the same rows in the same
    order (so five OHLCV rows for ["5d"] stay five OHLCV rows). *)
Theorem get_historical_prices_unmodified ticker period w stock w0 data w' :
  yf_Ticker ticker w = (Ok stock, w0) →
  history stock period w0 = (Ok data, w') →
  ∃ out, get_historical_prices ticker (Some period) w = (Ok out, w') ∧
         out = data ∧
         length (rows out) = length (rows data) ∧
         (is_ohlcv data → is_ohlcv out).
Proof.
  intros Hstock Hhist. exists data.
  by rewrite get_historical_prices_history, Hstock; simpl; rewrite Hhist.
Qed.

(** C10. Called without a period, [get_historical_prices] behaves as
    when called with period ['1mo'], whatever the world; and once the
    handle is made, what it returns and the world it leaves are those of
    the provider's history query for that ticker with the token ['1mo']:
    the answer is the provider's answer to ['1mo'], the provider is in
    the state that query put it in, and the one query entered in the
    trace carries ['1mo']. *)
Theorem get_historical_prices_default_period ticker w stock w0 :
  yf_Ticker ticker w = (Ok stock, w0) →
  (∀ w1, get_historical_prices ticker None w1 =
         get_historical_prices ticker (Some "1mo") w1) ∧
  get_historical_prices ticker None w =
    (fst (provider_history ticker "1mo" (provider w0)),
     mkWorld (snd (provider_history ticker "1mo" (provider w0)))
             (calls w ++ [HistoryCall ticker "1mo"])).
Proof.
  intros Hstock. split; [done|].
  rewrite get_historical_prices_history, Hstock. simpl.
  destruct (yf_Ticker_Ok _ _ _ _ Hstock) as [-> Hcalls].
  unfold history; simpl. rewrite Hcalls.
  by destruct (provider_history ticker "1mo" (provider w0)).
Qed.
End Fetchers.

Section InfoFetcher.
Context {P : Provider}.
Implicit Types (w : World) (ticker : string) (stock : Ticker).

(** The mapping built from nine values, whatever they are. *)
Lemma display_nine (v0 v1 v2 v3 v4 v5 v6 v7 v8 : PyValue) :
  PyDict.display
    [ ("Symbol", v0); ("Company Name", v1); ("Current Price", v2);
      ("Previous Close", v3); ("Open", v4); ("Day High", v5);
      ("Day Low", v6); ("Volume", v7); ("Market Cap", v8) ] =
    [ ("Symbol", v0); ("Company Name", v1); ("Current Price", v2);
      ("Previous Close", v3); ("Open", v4); ("Day High", v5);
      ("Day Low", v6); ("Volume", v7); ("Market Cap", v8) ].
Proof. reflexivity. Qed.

Lemma get_stock_info_info ticker w stock w0 bag w' :
  yf_Ticker ticker w = (Ok stock, w0) →
  info stock w0 = (Ok bag, w') →
  get_stock_info ticker w =
  (Ok [ ("Symbol", PyStr ticker);
        ("Company Name", PyDict.get bag "longName" NA);
        ("Current Price", PyDict.get bag "currentPrice" NA);
        ("Previous Close", PyDict.get bag "previousClose" NA);
        ("Open", PyDict.get bag "open" NA);
        ("Day High", PyDict.get bag "dayHigh" NA);
        ("Day Low", PyDict.get bag "dayLow" NA);
        ("Volume", PyDict.get bag "volume" NA);
        ("Market Cap", PyDict.get bag "marketCap" NA) ], w').
Proof.
  intros Hstock Hinfo. unfold get_stock_info, bind, ret.
  rewrite Hstock, Hinfo. by rewrite display_nine.
Qed.

(** C4. For every ticker whose handle is made and every info bag the
    provider answers with, the mapping [get_stock_info] returns has
    exactly the nine fixed keys; a key whose provider field is absent
    from the bag holds ["N/A"] (and one whose field is present holds the
    provider's value); and ["Symbol"] holds the ticker argument itself,
    whatever the bag says. *)
Theorem get_stock_info_nine_keys ticker w stock w0 bag w' :
  yf_Ticker ticker w = (Ok stock, w0) →
  info stock w0 = (Ok bag, w') →
  ∃ result,
    get_stock_info ticker w = (Ok result, w') ∧
    PyDict.keys result = stock_info_keys ∧
    PyDict.lookup result "Symbol" = Some (PyStr ticker) ∧
    ∀ key field, (key, field) ∈ provider_fields →
      (PyDict.lookup bag field = None →
         PyDict.lookup result key = Some (PyStr "N/A")) ∧
      (∀ v, PyDict.lookup bag field = Some v →
         PyDict.lookup result key = Some v).
Proof.
  intros Hstock Hinfo. eexists.
  split; [by apply (get_stock_info_info _ _ _ _ _ _ Hstock Hinfo)|].
  split; [done|]. split; [done|].
  intros key field Hin. unfold provider_fields in Hin.
  repeat (apply elem_of_cons in Hin as [[= -> ->]|Hin];
    [unfold PyDict.get; split; [intros ->|intros v ->]; reflexivity|]).
  by apply elem_of_nil in Hin.
Qed.
End InfoFetcher.

Section Batch.
Context {P : Provider}.
Implicit Types (w : World) (t : string) (tickers pre post : list string).
Implicit Types (d prices : PyDict.t string (option float)).

(** *** The loop, one iteration at a time *)

Lemma for_tickers_cons t tickers d w :
  for_tickers (t :: tickers) d w =
  match get_current_price t w with
  | (Ok price, w1) => for_tickers tickers (PyDict.setitem d t price) w1
  | (Raise e, w1) => (Raise e, w1)
  end.
Proof. reflexivity. Qed.

Lemma for_tickers_app pre post d w :
  for_tickers (pre ++ post) d w =
  match for_tickers pre d w with
  | (Ok d1, w1) => for_tickers post d1 w1
  | (Raise e, w1) => (Raise e, w1)
  end.
Proof.
  revert d w. induction pre as [|t pre IH]; intros d w; [done|].
  rewrite <- app_comm_cons, !for_tickers_cons.
  destruct (get_current_price t w) as [[price|e] w1]; [apply IH|done].
Qed.

Lemma for_tickers_split pre t post d0 w prices w' :
  for_tickers (pre ++ t :: post) d0 w = (Ok prices, w') →
  ∃ d w1 price w2,
    for_tickers pre d0 w = (Ok d, w1) ∧
    get_current_price t w1 = (Ok price, w2) ∧
    for_tickers post (PyDict.setitem d t price) w2 = (Ok prices, w').
Proof.
  rewrite for_tickers_app.
  destruct (for_tickers pre d0 w) as [[d|e] w1]; [|done].
  rewrite for_tickers_cons.
  destruct (get_current_price t w1) as [[price|e] w2] eqn:Hprice; [|done].
  intros Hpost. exists d, w1, price, w2. split_and!; done.
Qed.

(** *** What the loop leaves in the dictionary *)

Lemma for_tickers_lookup_notin tickers t d w prices w' :
  t ∉ tickers →
  for_tickers tickers d w = (Ok prices, w') →
  PyDict.lookup prices t = PyDict.lookup d t.
Proof.
  revert d w. induction tickers as [|t0 tickers IH]; intros d w Hnin.
  - by intros [= -> _].
  - apply not_elem_of_cons in Hnin as [Hne Hnin]. rewrite for_tickers_cons.
    destruct (get_current_price t0 w) as [[price|e] w1]; [|done].
    intros Hrest. rewrite (IH _ _ Hnin Hrest).
    apply lookup_setitem_ne. by intros ->.
Qed.

Lemma for_tickers_keys tickers d w prices w' :
  for_tickers tickers d w = (Ok prices, w') →
  PyDict.keys prices =
  PyDict.keys d ++
    filter (fun t => t ∉ PyDict.keys d) (first_occurrences tickers).
Proof.
  revert d w. induction tickers as [|t tickers IH]; intros d w.
  { intros [= -> _]. simpl. by rewrite app_nil_r. }
  rewrite for_tickers_cons.
  destruct (get_current_price t w) as [[price|e] w1]; [|done].
  intros Hrest. rewrite (IH _ _ Hrest), keys_setitem. simpl.
  destruct (decide (t ∈ PyDict.keys d)) as [Hin|Hnin].
  - rewrite filter_cons_False by (intros Hn; by apply Hn). f_equal.
    symmetry. apply list_filter_filter_l. by intros x Hx ->.
  - rewrite filter_cons_True by done.
    rewrite <- app_assoc. simpl. do 2 f_equal.
    rewrite list_filter_filter. apply list_filter_iff. intros x.
    rewrite elem_of_app, list_elem_of_singleton. tauto.
Qed.

Lemma for_tickers_calls tickers d w prices w' :
  for_tickers tickers d w = (Ok prices, w') →
  calls w' = calls w ++ map quote_call tickers.
Proof.
  revert d w. induction tickers as [|t tickers IH]; intros d w.
  { intros [= _ ->]. simpl. by rewrite app_nil_r. }
  rewrite for_tickers_cons.
  destruct (get_current_price t w) as [[price|e] w1] eqn:Hprice; [|done].
  intros Hrest.
  rewrite (IH _ _ Hrest), (get_current_price_calls _ _ _ _ Hprice).
  by rewrite <- app_assoc.
Qed.

(** *** Batch Quote Aggregator *)

(** C1. For every list of ticker symbols on which the batch returns, the
    keys of the returned mapping are exactly the distinct symbols of the
    list, and the value stored for a symbol is what [get_current_price]
    returns for that symbol on its own: run alone from the provider state
    at which the batch reaches the symbol's last occurrence and, for a
    symbol whose quote does not depend on the provider state, run alone
    from any state. *)
Theorem get_multiple_stocks_keys_values tickers w prices w' :
  get_multiple_stocks tickers w = (Ok prices, w') →
  (list_to_set (PyDict.keys prices) : gset string) = list_to_set tickers ∧
  NoDup (PyDict.keys prices) ∧
  (∀ t, t ∈ tickers →
     ∃ pre post d w1 price w2,
       tickers = pre ++ t :: post ∧ (t ∉ post) ∧
       get_multiple_stocks pre w = (Ok d, w1) ∧
       get_current_price t w1 = (Ok price, w2) ∧
       PyDict.lookup prices t = Some price) ∧
  (∀ t r, t ∈ tickers →
     (∀ w0, fst (get_current_price t w0) = r) →
     ∃ price, r = Ok price ∧ PyDict.lookup prices t = Some price).
Proof.
  intros Hrun. unfold get_multiple_stocks in *.
  pose proof (for_tickers_keys _ _ _ _ _ Hrun) as Hkeys. simpl in Hkeys.
  rewrite filter_all in Hkeys
    by (apply Forall_forall; intros x _; apply not_elem_of_nil).
  assert (Hlast : ∀ t, t ∈ tickers →
     ∃ pre post d w1 price w2,
       tickers = pre ++ t :: post ∧ (t ∉ post) ∧
       for_tickers pre PyDict.empty w = (Ok d, w1) ∧
       get_current_price t w1 = (Ok price, w2) ∧
       PyDict.lookup prices t = Some price).
  { intros t Hin.
    destruct (list_elem_of_split_r _ _ Hin) as (pre & post & -> & Hnin).
    destruct (for_tickers_split _ _ _ _ _ _ _ Hrun)
      as (d & w1 & price & w2 & Hpre & Hprice & Hpost).
    exists pre, post, d, w1, price, w2. split_and!; [done..|].
    rewrite (for_tickers_lookup_notin _ _ _ _ _ _ Hnin Hpost).
    apply lookup_setitem_eq. }
  split_and!.
  - apply set_eq. intros t. rewrite !elem_of_list_to_set, Hkeys.
    apply elem_of_first_occurrences.
  - rewrite Hkeys. apply NoDup_first_occurrences.
  - done.
  - intros t r Hin Hconst.
    destruct (Hlast t Hin)
      as (pre & post & d & w1 & price & w2 & _ & _ & _ & Hprice & Hval).
    exists price. split; [|done]. by rewrite <- (Hconst w1), Hprice.
Qed.

(** C5. When a symbol occurs more than once, the value finally stored
    for it is the result of its last occurrence: whatever was stored by
    the occurrences before, the price fetched at the last one is the one
    the mapping holds. *)
Theorem get_multiple_stocks_last_wins pre t post w d w1 price w2 prices w' :
  t ∉ post →
  get_multiple_stocks pre w = (Ok d, w1) →
  get_current_price t w1 = (Ok price, w2) →
  get_multiple_stocks (pre ++ t :: post) w = (Ok prices, w') →
  PyDict.lookup prices t = Some price.
Proof.
  unfold get_multiple_stocks. intros Hnin Hpre Hprice Hrun.
  destruct (for_tickers_split _ _ _ _ _ _ _ Hrun)
    as (d' & w1' & price' & w2' & Hpre' & Hprice' & Hpost).
  rewrite Hpre in Hpre'. injection Hpre' as <- <-.
  rewrite Hprice in Hprice'. injection Hprice' as <- <-.
  rewrite (for_tickers_lookup_notin _ _ _ _ _ _ Hnin Hpost).
  apply lookup_setitem_eq.
Qed.

(** C7. On the empty list the batch returns the empty mapping and
    leaves the world as it found it: no request is sent. *)
Theorem get_multiple_stocks_nil w :
  get_multiple_stocks [] w = (Ok PyDict.empty, w) ∧
  calls (snd (get_multiple_stocks [] w)) = calls w.
Proof. split; reflexivity. Qed.

(** The batch raises nothing of its own: an exception that ends it is the
    exception of the first fetch that failed. *)
Lemma for_tickers_raise_inv tickers d0 w e w2 :
  for_tickers tickers d0 w = (Raise e, w2) →
  ∃ pre t post d w1,
    tickers = pre ++ t :: post ∧
    for_tickers pre d0 w = (Ok d, w1) ∧
    get_current_price t w1 = (Raise e, w2).
Proof.
  revert d0 w. induction tickers as [|t tickers IH]; intros d0 w; [done|].
  rewrite for_tickers_cons.
  destruct (get_current_price t w) as [[price|e0] w1] eqn:Hprice.
  - intros Hrest.
    destruct (IH _ _ Hrest) as (pre & t' & post & d & w1' & -> & Hpre & Hfail).
    exists (t :: pre), t', post, d, w1'. split_and!; [done| |done].
    by rewrite for_tickers_cons, Hprice.
  - intros [= -> ->]. exists [], t, tickers, d0, w. by split_and!.
Qed.

(** C8. When the fetch for a symbol of the list fails, the batch does
    not catch the failure: it ends with that same exception, at the
    world the failed fetch left, with no mapping and no further
    request. *)
Theorem get_multiple_stocks_failure_propagates pre t post w d w1 e w2 :
  get_multiple_stocks pre w = (Ok d, w1) →
  get_current_price t w1 = (Raise e, w2) →
  get_multiple_stocks (pre ++ t :: post) w = (Raise e, w2).
Proof.
  unfold get_multiple_stocks. intros Hpre Hfail.
  by rewrite for_tickers_app, Hpre, for_tickers_cons, Hfail.
Qed.

(** C9. A batch that returns has sent one quote request per element of
    the input, in input order, the request for an element being issued
    at the world the elements before it left; and the keys of the
    mapping stand in the order in which the input first names them (the
    input itself when it has no duplicate). *)
Theorem get_multiple_stocks_sequential tickers w prices w' :
  get_multiple_stocks tickers w = (Ok prices, w') →
  calls w' = calls w ++ map quote_call tickers ∧
  (∀ pre t post, tickers = pre ++ t :: post →
     ∃ d w1 price w2,
       get_multiple_stocks pre w = (Ok d, w1) ∧
       get_current_price t w1 = (Ok price, w2) ∧
       get_multiple_stocks (pre ++ [t]) w =
         (Ok (PyDict.setitem d t price), w2)) ∧
  PyDict.keys prices = first_occurrences tickers ∧
  (NoDup tickers → PyDict.keys prices = tickers).
Proof.
  unfold get_multiple_stocks. intros Hrun.
  pose proof (for_tickers_keys _ _ _ _ _ Hrun) as Hkeys. simpl in Hkeys.
  rewrite filter_all in Hkeys
    by (apply Forall_forall; intros x _; apply not_elem_of_nil).
  split_and!.
  - by apply (for_tickers_calls _ _ _ _ _ Hrun).
  - intros pre t post ->.
    destruct (for_tickers_split _ _ _ _ _ _ _ Hrun)
      as (d & w1 & price & w2 & Hpre & Hprice & _).
    exists d, w1, price, w2. split_and!; [done..|].
    by rewrite for_tickers_app, Hpre, for_tickers_cons, Hprice.
  - done.
  - intros Hnodup. by rewrite Hkeys, first_occurrences_NoDup.
Qed.
End Batch.

(** ** The theorems at work on the scenarios *)

Lemma get_current_price_last_close_witness :
  yf_Ticker (P:=script_provider) "AAPL"
    (script_world [Ok (one_day 10)] []) =
    (Ok (mkTicker "AAPL"), script_world [Ok (one_day 10)] []) ∧
  history (P:=script_provider) (mkTicker "AAPL") "1d"
    (script_world [Ok (one_day 10)] []) =
    (Ok (one_day 10), script_world [] [quote_call "AAPL"]) ∧
  df_empty (one_day 10) = false ∧
  "Close" ∈ columns (one_day 10) ∧
  get_current_price (P:=script_provider) "AAPL"
    (script_world [Ok (one_day 10)] []) =
    (Ok (Some 10%float), script_world [] [quote_call "AAPL"]).
Proof.
  assert (Hcol : "Close" ∈ columns (one_day 10)) by (do 3 right; left).
  split_and!; [reflexivity | reflexivity | reflexivity | exact Hcol |].
  destruct (get_current_price_last_close (P:=script_provider) "AAPL"
              (script_world [Ok (one_day 10)] []) (mkTicker "AAPL")
              (script_world [Ok (one_day 10)] []) (one_day 10)
              (script_world [] [quote_call "AAPL"])
              eq_refl eq_refl eq_refl Hcol) as (r & Hr & Hres).
  injection Hr as <-. exact Hres.
Defined.

Lemma get_current_price_empty_witness :
  yf_Ticker (P:=script_provider) "ZZZZ" (script_world [Ok no_data] []) =
    (Ok (mkTicker "ZZZZ"), script_world [Ok no_data] []) ∧
  history (P:=script_provider) (mkTicker "ZZZZ") "1d"
    (script_world [Ok no_data] []) =
    (Ok no_data, script_world [] [quote_call "ZZZZ"]) ∧
  df_empty no_data = true ∧
  get_current_price (P:=script_provider) "ZZZZ"
    (script_world [Ok no_data] []) =
    (Ok None, script_world [] [quote_call "ZZZZ"]).
Proof.
  split_and!; [reflexivity | reflexivity | reflexivity |].
  exact (proj1 (get_current_price_empty (P:=script_provider) "ZZZZ"
                  (script_world [Ok no_data] []) (mkTicker "ZZZZ")
                  (script_world [Ok no_data] []) no_data
                  (script_world [] [quote_call "ZZZZ"])
                  eq_refl eq_refl eq_refl)).
Defined.

Lemma get_historical_prices_unmodified_witness :
  yf_Ticker (P:=script_provider) "AAPL" (script_world [Ok five_days] []) =
    (Ok (mkTicker "AAPL"), script_world [Ok five_days] []) ∧
  history (P:=script_provider) (mkTicker "AAPL") "5d"
    (script_world [Ok five_days] []) =
    (Ok five_days, script_world [] [HistoryCall "AAPL" "5d"]) ∧
  ∃ out,
    get_historical_prices (P:=script_provider) "AAPL" (Some "5d")
      (script_world [Ok five_days] []) =
      (Ok out, script_world [] [HistoryCall "AAPL" "5d"]) ∧
    out = five_days ∧ length (rows out) = 5 ∧ is_ohlcv out.
Proof.
  split_and!; [reflexivity | reflexivity |].
  destruct (get_historical_prices_unmodified (P:=script_provider) "AAPL" "5d"
              (script_world [Ok five_days] []) (mkTicker "AAPL")
              (script_world [Ok five_days] []) five_days
              (script_world [] [HistoryCall "AAPL" "5d"])
              eq_refl eq_refl) as (out & Hout & Heq & Hlen & Hcols).
  exists out. split_and!; [exact Hout | exact Heq | |].
  - rewrite Hlen. reflexivity.
  - apply Hcols. intros label Hl. exact Hl.
Defined.

Lemma get_historical_prices_default_period_witness :
  yf_Ticker (P:=period_provider) "AAPL" (period_world []) =
    (Ok (mkTicker "AAPL"), period_world []) ∧
  get_historical_prices (P:=period_provider) "AAPL" None (period_world []) =
    (Ok five_days, period_world [HistoryCall "AAPL" "1mo"]) ∧
  get_historical_prices (P:=period_provider) "AAPL" (Some "5d")
    (period_world []) =
    (Ok (one_day 10), period_world [HistoryCall "AAPL" "5d"]).
Proof.
  split_and!; [reflexivity | | reflexivity].
  exact (proj2 (get_historical_prices_default_period (P:=period_provider)
                  "AAPL" (period_world []) (mkTicker "AAPL")
                  (period_world []) eq_refl)).
Defined.

Lemma get_stock_info_nine_keys_witness :
  yf_Ticker (P:=apple_provider) "AAPL" (apple_world []) =
    (Ok (mkTicker "AAPL"), apple_world []) ∧
  info (P:=apple_provider) (mkTicker "AAPL") (apple_world []) =
    (Ok apple_bag, apple_world [InfoCall "AAPL"]) ∧
  ∃ result,
    get_stock_info (P:=apple_provider) "AAPL" (apple_world []) =
      (Ok result, apple_world [InfoCall "AAPL"]) ∧
    PyDict.keys result = stock_info_keys ∧
    PyDict.lookup result "Symbol" = Some (PyStr "AAPL") ∧
    PyDict.lookup result "Company Name" = Some (PyStr "Apple Inc.") ∧
    PyDict.lookup result "Market Cap" = Some (PyStr "N/A").
Proof.
  split_and!; [reflexivity | reflexivity |].
  destruct (get_stock_info_nine_keys (P:=apple_provider) "AAPL"
              (apple_world []) (mkTicker "AAPL") (apple_world []) apple_bag
              (apple_world [InfoCall "AAPL"]) eq_refl eq_refl)
    as (result & Hres & Hkeys & Hsym & Hfields).
  exists result. split_and!; [exact Hres | exact Hkeys | exact Hsym | |].
  - refine (proj2 (Hfields "Company Name" "longName" _) _ eq_refl).
    unfold provider_fields. left.
  - refine (proj1 (Hfields "Market Cap" "marketCap" _) eq_refl).
    unfold provider_fields. do 7 right. left.
Defined.

Lemma get_multiple_stocks_keys_values_witness :
  get_multiple_stocks (P:=apple_provider) ["AAPL"; "ZZZZ"; "AAPL"]
    (apple_world []) =
    (Ok [("AAPL", Some 10%float); ("ZZZZ", None)],
     apple_world (map quote_call ["AAPL"; "ZZZZ"; "AAPL"])) ∧
  (list_to_set (PyDict.keys [("AAPL", Some 10%float); ("ZZZZ", @None float)])
     : gset string) = list_to_set ["AAPL"; "ZZZZ"; "AAPL"] ∧
  NoDup (PyDict.keys [("AAPL", Some 10%float); ("ZZZZ", @None float)]) ∧
  (∀ w0, fst (get_current_price (P:=apple_provider) "AAPL" w0) =
         Ok (Some 10%float)) ∧
  PyDict.lookup [("AAPL", Some 10%float); ("ZZZZ", @None float)] "AAPL" =
    Some (Some 10%float).
Proof.
  assert (Hfixed : ∀ w0, fst (get_current_price (P:=apple_provider) "AAPL" w0)
                         = Ok (Some 10%float)) by (intros w0; reflexivity).
  assert (Hin : "AAPL" ∈ ["AAPL"; "ZZZZ"; "AAPL"]) by left.
  split; [reflexivity|].
  destruct (get_multiple_stocks_keys_values (P:=apple_provider)
              ["AAPL"; "ZZZZ"; "AAPL"] (apple_world [])
              [("AAPL", Some 10%float); ("ZZZZ", None)]
              (apple_world (map quote_call ["AAPL"; "ZZZZ"; "AAPL"]))
              eq_refl) as (Hkeys & Hnodup & _ & Hvalue).
  split_and!; [exact Hkeys | exact Hnodup | exact Hfixed |].
  destruct (Hvalue "AAPL" (Ok (Some 10%float)) Hin Hfixed)
    as (price & Hprice & Hstored).
  injection Hprice as <-. exact Hstored.
Defined.

Lemma get_multiple_stocks_last_wins_witness :
  ("A" ∉ @nil string) ∧
  get_multiple_stocks (P:=script_provider) ["A"]
    (script_world quotes_10_12 []) =
    (Ok [("A", Some 10%float)],
     script_world [Ok (one_day 12)] [quote_call "A"]) ∧
  get_current_price (P:=script_provider) "A"
    (script_world [Ok (one_day 12)] [quote_call "A"]) =
    (Ok (Some 12%float), script_world [] [quote_call "A"; quote_call "A"]) ∧
  get_multiple_stocks (P:=script_provider) ["A"; "A"]
    (script_world quotes_10_12 []) =
    (Ok [("A", Some 12%float)],
     script_world [] [quote_call "A"; quote_call "A"]) ∧
  PyDict.lookup [("A", Some 12%float)] "A" = Some (Some 12%float).
Proof.
  assert (Hnin : "A" ∉ @nil string) by apply not_elem_of_nil.
  split_and!; [exact Hnin | reflexivity | reflexivity | reflexivity |].
  exact (get_multiple_stocks_last_wins (P:=script_provider) ["A"] "A" []
           (script_world quotes_10_12 []) [("A", Some 10%float)]
           (script_world [Ok (one_day 12)] [quote_call "A"])
           (Some 12%float)
           (script_world [] [quote_call "A"; quote_call "A"])
           [("A", Some 12%float)]
           (script_world [] [quote_call "A"; quote_call "A"])
           Hnin eq_refl eq_refl eq_refl).
Defined.

Lemma get_multiple_stocks_failure_propagates_witness :
  get_multiple_stocks (P:=script_provider) ["AAPL"]
    (script_world quotes_10_fail_12 []) =
    (Ok [("AAPL", Some 10%float)],
     script_world [Raise (ProviderFailure "timeout"); Ok (one_day 12)]
       [quote_call "AAPL"]) ∧
  get_current_price (P:=script_provider) "MSFT"
    (script_world [Raise (ProviderFailure "timeout"); Ok (one_day 12)]
       [quote_call "AAPL"]) =
    (Raise (ProviderFailure "timeout"),
     script_world [Ok (one_day 12)] [quote_call "AAPL"; quote_call "MSFT"]) ∧
  get_multiple_stocks (P:=script_provider) ["AAPL"; "MSFT"; "TSLA"]
    (script_world quotes_10_fail_12 []) =
    (Raise (ProviderFailure "timeout"),
     script_world [Ok (one_day 12)] [quote_call "AAPL"; quote_call "MSFT"]).
Proof.
  split_and!; [reflexivity | reflexivity |].
  exact (get_multiple_stocks_failure_propagates (P:=script_provider)
           ["AAPL"] "MSFT" ["TSLA"] (script_world quotes_10_fail_12 [])
           [("AAPL", Some 10%float)]
           (script_world [Raise (ProviderFailure "timeout"); Ok (one_day 12)]
              [quote_call "AAPL"])
           (ProviderFailure "timeout")
           (script_world [Ok (one_day 12)]
              [quote_call "AAPL"; quote_call "MSFT"])
           eq_refl eq_refl).
Defined.

Lemma get_multiple_stocks_sequential_witness :
  get_multiple_stocks (P:=script_provider) ["AAPL"; "ZZZZ"; "AAPL"]
    (script_world quotes_10_none_12 []) =
    (Ok [("AAPL", Some 12%float); ("ZZZZ", None)],
     script_world []
       [quote_call "AAPL"; quote_call "ZZZZ"; quote_call "AAPL"]) ∧
  calls (script_world []
           [quote_call "AAPL"; quote_call "ZZZZ"; quote_call "AAPL"]) =
    [] ++ map quote_call ["AAPL"; "ZZZZ"; "AAPL"] ∧
  PyDict.keys [("AAPL", Some 12%float); ("ZZZZ", @None float)] =
    first_occurrences ["AAPL"; "ZZZZ"; "AAPL"].
Proof.
  split; [reflexivity|].
  destruct (get_multiple_stocks_sequential (P:=script_provider)
              ["AAPL"; "ZZZZ"; "AAPL"] (script_world quotes_10_none_12 [])
              [("AAPL", Some 12%float); ("ZZZZ", None)]
              (script_world []
                 [quote_call "AAPL"; quote_call "ZZZZ"; quote_call "AAPL"])
              eq_refl) as (Hcalls & _ & Hkeys & _).
  split; [exact Hcalls | exact Hkeys].
Defined.

(** ** Further properties of the fetchers *)

Section FetcherEdges.
Context {P : Provider}.
Implicit Types (w : World) (ticker : string) (stock : Ticker).

(** X1. A failure of the one-day history query is not caught by
    [get_current_price]: the same exception comes out, at the world the
    query left. *)
Theorem get_current_price_provider_failure ticker w stock w0 e w' :
  yf_Ticker ticker w = (Ok stock, w0) →
  history stock "1d" w0 = (Raise e, w') →
  get_current_price ticker w = (Raise e, w').
Proof.
  intros Hstock Hhist. by rewrite get_current_price_history, Hstock, Hhist.
Qed.

(** X3. [get_current_price] raises in three cases only: the handle was
    refused, and then no query was sent; or the history query raised; or
    it answered with a non-empty table that has no ["Close"] column, and
    then the exception is [KeyError "Close"].  The position [-1] is never
    out of range. *)
Theorem get_current_price_raise_inv ticker w e w' :
  get_current_price ticker w = (Raise e, w') →
  (yf_Ticker ticker w = (Raise e, w') ∧ calls w' = calls w) ∨
  ∃ stock w0,
    yf_Ticker ticker w = (Ok stock, w0) ∧
    (history stock "1d" w0 = (Raise e, w') ∨
     ∃ data,
       history stock "1d" w0 = (Ok data, w') ∧
       df_empty data = false ∧
       ("Close" ∉ columns data) ∧
       e = KeyError "Close").
Proof.
  rewrite get_current_price_history.
  pose proof (yf_Ticker_calls ticker w) as Hcalls.
  destruct (yf_Ticker ticker w) as [[stock|e0] w0] eqn:Hstock;
    [|intros [= -> ->]; by left].
  intros Hrun. right. exists stock, w0. split; [done|].
  destruct (history stock "1d" w0) as [[data|e1] w1] eqn:Hhist;
    [|injection Hrun as -> ->; by left].
  destruct (df_empty data) eqn:Hempty; [done|].
  unfold df_getitem in Hrun.
  destruct (decide ("Close" ∈ columns data)) as [Hin|Hnin].
  - destruct (df_empty_false data Hempty) as [r Hr].
    erewrite iloc_last in Hrun; [done|].
    rewrite last_map. unfold last_record in Hr. by rewrite Hr.
  - injection Hrun as <- <-. right. by exists data.
Qed.

(** X4. Given an answer of the history query, [get_current_price]
    returns [None] exactly when the table is empty. *)
Theorem get_current_price_none_iff ticker w stock w0 data w' :
  yf_Ticker ticker w = (Ok stock, w0) →
  history stock "1d" w0 = (Ok data, w') →
  fst (get_current_price ticker w) = Ok None ↔ df_empty data = true.
Proof.
  intros Hstock Hhist. rewrite get_current_price_history, Hstock, Hhist.
  destruct (df_empty data); [done|]. split; [|done].
  destruct (df_getitem data "Close") as [close|e]; [|done].
  by destruct (iloc close (-1)).
Qed.

(** X5. Once its handle is made, [get_current_price] sends one query,
    whatever comes back: the one-day history of its ticker; and it leaves
    the provider in the state that one query put it in. *)
Theorem get_current_price_one_request ticker w stock w0 :
  yf_Ticker ticker w = (Ok stock, w0) →
  calls (snd (get_current_price ticker w)) =
    calls w ++ [HistoryCall ticker "1d"] ∧
  provider (snd (get_current_price ticker w)) =
    snd (provider_history ticker "1d" (provider w0)).
Proof.
  intros Hstock. rewrite (get_current_price_world _ _ _ _ Hstock).
  destruct (yf_Ticker_Ok _ _ _ _ Hstock) as [-> Hcalls].
  unfold history; simpl. rewrite Hcalls.
  by destruct (provider_history ticker "1d" (provider w0)).
Qed.

(** X6. The current price is the last close of the one-day history:
    when [get_historical_prices] with period ["1d"] returns a table with
    a ["Close"] column and a last record, [get_current_price] returns
    that record's close and leaves the same world. *)
Theorem get_current_price_of_history ticker w data w' r :
  get_historical_prices ticker (Some "1d") w = (Ok data, w') →
  "Close" ∈ columns data →
  last_record data = Some r →
  get_current_price ticker w = (Ok (Some (cell r "Close")), w').
Proof.
  rewrite get_historical_prices_history, get_current_price_history.
  destruct (yf_Ticker ticker w) as [[stock|e] w0]; [|done].
  simpl. intros Hhist Hcol Hr.
  assert (Hne : df_empty data = false).
  { unfold df_empty, last_record in *.
    destruct (columns data); [by apply elem_of_nil in Hcol|].
    by destruct (rows data). }
  rewrite Hhist, Hne.
  unfold df_getitem. rewrite decide_True by done.
  erewrite iloc_last; [done|].
  rewrite last_map. unfold last_record in Hr. by rewrite Hr.
Qed.

(** A history fetch that returns has sent its one query. *)
Lemma get_historical_prices_calls ticker period w data w' :
  get_historical_prices ticker (Some period) w = (Ok data, w') →
  calls w' = calls w ++ [HistoryCall ticker period].
Proof.
  rewrite get_historical_prices_history.
  destruct (yf_Ticker ticker w) as [[stock|e] w0] eqn:Hstock; [|done].
  destruct (yf_Ticker_Ok _ _ _ _ Hstock) as [-> Hcalls]. simpl.
  intros Hhist. pose proof (history_calls (mkTicker ticker) period w0) as Hc.
  rewrite Hhist in Hc. simpl in Hc. by rewrite Hc, Hcalls.
Qed.

(** X7. [get_historical_prices] does not check the period: once its
    handle is made, whatever the string, it sends one query that carries
    it as it is, leaves the provider in the state that one query put it
    in, and raises exactly when the query raises, with the same
    exception. *)
Theorem get_historical_prices_one_request ticker period w stock w0 :
  yf_Ticker ticker w = (Ok stock, w0) →
  calls (snd (get_historical_prices ticker (Some period) w)) =
    calls w ++ [HistoryCall ticker period] ∧
  provider (snd (get_historical_prices ticker (Some period) w)) =
    snd (provider_history ticker period (provider w0)) ∧
  (∀ e, fst (get_historical_prices ticker (Some period) w) = Raise e ↔
        fst (provider_history ticker period (provider w0)) = Raise e).
Proof.
  intros Hstock. rewrite get_historical_prices_history, Hstock.
  destruct (yf_Ticker_Ok _ _ _ _ Hstock) as [-> Hcalls].
  unfold history; simpl. rewrite Hcalls.
  by destruct (provider_history ticker period (provider w0)).
Qed.

(** An info fetch that returns has sent its one query. *)
Lemma get_stock_info_calls ticker w result w' :
  get_stock_info ticker w = (Ok result, w') →
  calls w' = calls w ++ [InfoCall ticker].
Proof.
  unfold get_stock_info, bind, ret.
  destruct (yf_Ticker ticker w) as [[stock|e] w0] eqn:Hstock; [|done].
  destruct (yf_Ticker_Ok _ _ _ _ Hstock) as [-> Hcalls].
  pose proof (info_calls (mkTicker ticker) w0) as Hc.
  destruct (info (mkTicker ticker) w0) as [[bag|e] w1]; [|done].
  intros [= _ <-]. simpl in Hc. by rewrite Hc, Hcalls.
Qed.

(** X8. Once its handle is made, [get_stock_info] sends one query,
    whatever comes back: the info query of its ticker, and no history
    query; it leaves the provider in the state that one query put it in,
    and raises exactly when the query raises, with the same exception. *)
Theorem get_stock_info_one_request ticker w stock w0 :
  yf_Ticker ticker w = (Ok stock, w0) →
  calls (snd (get_stock_info ticker w)) = calls w ++ [InfoCall ticker] ∧
  provider (snd (get_stock_info ticker w)) =
    snd (provider_info ticker (provider w0)) ∧
  (∀ e, fst (get_stock_info ticker w) = Raise e ↔
        fst (provider_info ticker (provider w0)) = Raise e).
Proof.
  intros Hstock. unfold get_stock_info, bind, ret. rewrite Hstock.
  destruct (yf_Ticker_Ok _ _ _ _ Hstock) as [-> Hcalls].
  unfold info; simpl. rewrite Hcalls.
  by destruct (provider_info ticker (provider w0)) as [[bag|e] p].
Qed.

(** X9. The mapping of [get_stock_info] depends on the ticker and on
    the eight fields it reads, and on nothing else in the bag: two bags
    that agree on these fields give the same mapping. *)
Theorem get_stock_info_projection
    ticker w1 stock1 v1 bag1 w1' w2 stock2 v2 bag2 w2' :
  yf_Ticker ticker w1 = (Ok stock1, v1) →
  info stock1 v1 = (Ok bag1, w1') →
  yf_Ticker ticker w2 = (Ok stock2, v2) →
  info stock2 v2 = (Ok bag2, w2') →
  (∀ key field, (key, field) ∈ provider_fields →
     PyDict.lookup bag1 field = PyDict.lookup bag2 field) →
  fst (get_stock_info ticker w1) = fst (get_stock_info ticker w2).
Proof.
  intros Hs1 H1 Hs2 H2 Hagree.
  rewrite (get_stock_info_info _ _ _ _ _ _ Hs1 H1),
    (get_stock_info_info _ _ _ _ _ _ Hs2 H2).
  unfold PyDict.get, provider_fields in *. simpl.
  rewrite (Hagree "Company Name" "longName") by left.
  rewrite (Hagree "Current Price" "currentPrice") by (right; left).
  rewrite (Hagree "Previous Close" "previousClose") by (do 2 right; left).
  rewrite (Hagree "Open" "open") by (do 3 right; left).
  rewrite (Hagree "Day High" "dayHigh") by (do 4 right; left).
  rewrite (Hagree "Day Low" "dayLow") by (do 5 right; left).
  rewrite (Hagree "Volume" "volume") by (do 6 right; left).
  rewrite (Hagree "Market Cap" "marketCap") by (do 7 right; left).
  done.
Qed.

(** X20. When the client refuses to make the handle of a ticker, each
    of the three fetchers ends with the client's exception before it has
    sent any query: the trace is as it was. *)
Theorem refused_ticker_no_query ticker (arg : option string) w e w' :
  yf_Ticker ticker w = (Raise e, w') →
  get_current_price ticker w = (Raise e, w') ∧
  get_historical_prices ticker arg w = (Raise e, w') ∧
  get_stock_info ticker w = (Raise e, w') ∧
  calls w' = calls w.
Proof.
  intros Hstock. pose proof (yf_Ticker_calls ticker w) as Hcalls.
  rewrite Hstock in Hcalls. split_and!; [| | |done].
  - by rewrite get_current_price_history, Hstock.
  - by rewrite get_historical_prices_history, Hstock.
  - unfold get_stock_info, bind. by rewrite Hstock.
Qed.
End FetcherEdges.

(** ** Dictionaries: update *)

Section DictUpdate.
Context {K V : Type} `{EqDecision K}.
Implicit Types (d a : PyDict.t K V) (k : K) (v : V).

Lemma dict_update_cons d k v a :
  dict_update d ((k, v) :: a) = dict_update (PyDict.setitem d k v) a.
Proof. reflexivity. Qed.

Lemma setitem_setitem_eq d k v v' :
  PyDict.setitem (PyDict.setitem d k v') k v = PyDict.setitem d k v.
Proof.
  induction d as [|[k0 v0] d IH]; simpl.
  - by rewrite decide_True.
  - destruct (decide (k0 = k)) as [->|Hne]; simpl.
    + by rewrite decide_True.
    + rewrite decide_False by done. by rewrite IH.
Qed.

(** Two assignments to different keys commute when the second key is
    already there, so that no new key changes place. *)
Lemma setitem_setitem_ne d k k1 v v1 :
  k ≠ k1 → k ∈ PyDict.keys d →
  PyDict.setitem (PyDict.setitem d k1 v1) k v =
  PyDict.setitem (PyDict.setitem d k v) k1 v1.
Proof.
  intros Hne. induction d as [|[k0 v0] d IH]; simpl.
  - by intros ?%elem_of_nil.
  - intros Hin. destruct (decide (k0 = k1)) as [->|Hne1].
    + rewrite decide_False by done. simpl.
      rewrite decide_False by done. by rewrite decide_True.
    + destruct (decide (k0 = k)) as [->|Hne0]; simpl.
      * rewrite decide_True by done. by rewrite decide_False.
      * rewrite !decide_False by done. rewrite IH; [done|].
        apply elem_of_cons in Hin as [?|?]; [congruence|done].
Qed.

Lemma setitem_dict_update_in d a k v :
  k ∈ PyDict.keys d → k ∉ PyDict.keys a →
  PyDict.setitem (dict_update d a) k v = dict_update (PyDict.setitem d k v) a.
Proof.
  revert d. induction a as [|[k1 v1] a IH]; intros d Hin Hnin; [done|].
  apply not_elem_of_cons in Hnin as [Hne Hnin]. simpl in Hne.
  rewrite !dict_update_cons, IH; [|rewrite keys_setitem; case_decide|done].
  - by rewrite setitem_setitem_ne.
  - done.
  - apply elem_of_app. by left.
Qed.

(** Updating with a dictionary after an assignment is assigning after the
    update. *)
Lemma dict_update_setitem d a k v :
  NoDup (PyDict.keys a) →
  dict_update d (PyDict.setitem a k v) = PyDict.setitem (dict_update d a) k v.
Proof.
  revert d. induction a as [|[k0 v0] a IH]; intros d Hnd; [done|].
  apply NoDup_cons in Hnd as [Hnin Hnd]. simpl.
  destruct (decide (k0 = k)) as [->|Hne].
  - rewrite !dict_update_cons, setitem_dict_update_in; [|..|done].
    + by rewrite setitem_setitem_eq.
    + rewrite keys_setitem. case_decide; [done|]. apply elem_of_app. right. left.
  - rewrite !dict_update_cons. by apply IH.
Qed.
End DictUpdate.

(** ** First occurrences: how many *)

Lemma length_first_occurrences (l : list string) :
  length (first_occurrences l) ≤ length l.
Proof.
  induction l as [|x l IH]; simpl; [done|].
  pose proof (length_filter (fun y => y ≠ x) (first_occurrences l)). lia.
Qed.

Lemma length_first_occurrences_NoDup (l : list string) :
  length (first_occurrences l) = length l ↔ NoDup l.
Proof.
  split; [|by intros ->%first_occurrences_NoDup].
  induction l as [|x l IH]; simpl; [constructor|].
  intros Hlen.
  pose proof (length_filter (fun y => y ≠ x) (first_occurrences l)) as Hf.
  pose proof (length_first_occurrences l) as Hl.
  constructor; [|apply IH; lia].
  intros Hin%elem_of_first_occurrences.
  pose proof (length_filter_lt (fun y => y ≠ x) _ x Hin) as Hlt.
  assert (Hnn : ¬ x ≠ x) by (intros Hx; by apply Hx).
  specialize (Hlt Hnn). lia.
Qed.

(** ** Further properties of the batch *)

Section BatchEdges.
Context {P : Provider}.
Implicit Types (w : World) (t : string) (tickers pre post : list string).
Implicit Types (d prices : PyDict.t string (option float)).

Lemma for_tickers_NoDup tickers d w prices w' :
  NoDup (PyDict.keys d) →
  for_tickers tickers d w = (Ok prices, w') →
  NoDup (PyDict.keys prices).
Proof.
  revert d w. induction tickers as [|t tickers IH]; intros d w Hd.
  - by intros [= <- _].
  - rewrite for_tickers_cons.
    destruct (get_current_price t w) as [[price|e] w1]; [|done].
    apply IH. by apply NoDup_keys_setitem.
Qed.

Lemma for_tickers_update tickers d0 a w a' w' :
  NoDup (PyDict.keys a) →
  for_tickers tickers a w = (Ok a', w') →
  for_tickers tickers (dict_update d0 a) w = (Ok (dict_update d0 a'), w').
Proof.
  revert a w. induction tickers as [|t tickers IH]; intros a w Ha.
  - by intros [= <- <-].
  - rewrite !for_tickers_cons.
    destruct (get_current_price t w) as [[price|e] w1]; [|done].
    intros Hrest. rewrite <- dict_update_setitem by done.
    apply IH; [by apply NoDup_keys_setitem|done].
Qed.

(** X10. A batch that raises has stopped at the first fetch that
    failed: the symbols before it were fetched and each had its query
    sent, the exception is that fetch's own, and after those queries the
    trace holds at most the query of the failing symbol (none when its
    handle was refused), so nothing after it was asked for. *)
Theorem get_multiple_stocks_first_failure tickers w e w2 :
  get_multiple_stocks tickers w = (Raise e, w2) →
  ∃ pre t post d w1,
    tickers = pre ++ t :: post ∧
    get_multiple_stocks pre w = (Ok d, w1) ∧
    get_current_price t w1 = (Raise e, w2) ∧
    calls w1 = calls w ++ map quote_call pre ∧
    ((yf_Ticker t w1 = (Raise e, w2) ∧ calls w2 = calls w1) ∨
     (∃ stock w0,
        yf_Ticker t w1 = (Ok stock, w0) ∧
        calls w2 = calls w1 ++ [quote_call t])).
Proof.
  unfold get_multiple_stocks. intros Hrun.
  destruct (for_tickers_raise_inv _ _ _ _ _ Hrun)
    as (pre & t & post & d & w1 & -> & Hpre & Hfail).
  exists pre, t, post, d, w1.
  split_and!; [done..|by apply (for_tickers_calls _ _ _ _ _ Hpre)|].
  destruct (yf_Ticker t w1) as [[stock|e0] w0] eqn:Hstock.
  - right. exists stock, w0. split; [done|].
    pose proof (get_current_price_world _ _ _ _ Hstock) as Hw.
    rewrite Hfail in Hw. simpl in Hw. rewrite Hw, history_calls.
    destruct (yf_Ticker_Ok _ _ _ _ Hstock) as [-> ->]. done.
  - left. pose proof (yf_Ticker_calls t w1) as Hc. rewrite Hstock in Hc.
    rewrite get_current_price_history, Hstock in Hfail.
    injection Hfail as <- <-. done.
Qed.

(** X11. A batch over two lists in a row is the batch over the first,
    updated with the batch over the second run from where the first
    stopped. *)
Theorem get_multiple_stocks_app pre post w d1 w1 d2 w2 :
  get_multiple_stocks pre w = (Ok d1, w1) →
  get_multiple_stocks post w1 = (Ok d2, w2) →
  get_multiple_stocks (pre ++ post) w = (Ok (dict_update d1 d2), w2).
Proof.
  unfold get_multiple_stocks. intros Hpre Hpost.
  rewrite for_tickers_app, Hpre.
  apply (for_tickers_update post d1 PyDict.empty w1 d2 w2);
    [constructor|done].
Qed.

(** X12. The mapping of a batch has at most as many entries as the
    list has elements, and as many exactly when no symbol is repeated. *)
Theorem get_multiple_stocks_size tickers w prices w' :
  get_multiple_stocks tickers w = (Ok prices, w') →
  length prices ≤ length tickers ∧
  (length prices = length tickers ↔ NoDup tickers).
Proof.
  unfold get_multiple_stocks. intros Hrun.
  pose proof (for_tickers_keys _ _ _ _ _ Hrun) as Hkeys. simpl in Hkeys.
  rewrite filter_all in Hkeys
    by (apply Forall_forall; intros x _; apply not_elem_of_nil).
  assert (Hlen : length prices = length (first_occurrences tickers))
    by (by rewrite <- Hkeys; unfold PyDict.keys; rewrite length_map).
  rewrite Hlen. split.
  - apply length_first_occurrences.
  - apply length_first_occurrences_NoDup.
Qed.

(** With quotes [q] that do not move, the loop assigns [q t] to every
    symbol it meets. *)
Lemma for_tickers_fixed (q : string → option float) tickers d w :
  (∀ t, t ∈ tickers → ∀ w0, fst (get_current_price t w0) = Ok (q t)) →
  fst (for_tickers tickers d w) =
  Ok (foldl (fun acc t => PyDict.setitem acc t (q t)) d tickers).
Proof.
  revert d w. induction tickers as [|t tickers IH]; intros d w Hq; [done|].
  rewrite for_tickers_cons. pose proof (Hq t ltac:(left) w) as Ht.
  destruct (get_current_price t w) as [[price|e] w1]; [|done].
  simpl in Ht. injection Ht as ->. apply IH.
  intros t' Hin. apply Hq. by right.
Qed.

Lemma setitem_tabulate (q : string → option float) (ks : list string) t :
  PyDict.setitem (map (fun k => (k, q k)) ks) t (q t) =
  map (fun k => (k, q k)) (if decide (t ∈ ks) then ks else ks ++ [t]).
Proof.
  induction ks as [|k ks IH]; simpl; [done|].
  destruct (decide (k = t)) as [->|Hne].
  - by rewrite decide_True by left.
  - rewrite IH. destruct (decide (t ∈ ks)) as [Hin|Hnin].
    + by rewrite decide_True by (by right).
    + rewrite decide_False; [done|].
      intros [?|?]%elem_of_cons; [congruence|done].
Qed.

Lemma foldl_setitem_tabulate (q : string → option float) tickers ks :
  foldl (fun acc t => PyDict.setitem acc t (q t))
        (map (fun k => (k, q k)) ks) tickers =
  map (fun k => (k, q k))
      (ks ++ filter (fun t => t ∉ ks) (first_occurrences tickers)).
Proof.
  revert ks. induction tickers as [|t tickers IH]; intros ks; simpl.
  { by rewrite app_nil_r. }
  rewrite setitem_tabulate, IH. f_equal.
  destruct (decide (t ∈ ks)) as [Hin|Hnin].
  - rewrite filter_cons_False by (intros Hn; by apply Hn). f_equal.
    symmetry. apply list_filter_filter_l. by intros x Hx ->.
  - rewrite filter_cons_True by done.
    rewrite <- app_assoc. simpl. do 2 f_equal.
    rewrite list_filter_filter. apply list_filter_iff. intros x.
    rewrite elem_of_app, list_elem_of_singleton. tauto.
Qed.

(** X13. With quotes that do not depend on the provider's state, a
    batch returns, and its mapping is the table of the quotes of the
    distinct symbols, in the order the list first names them: repeating
    a symbol changes nothing. *)
Theorem get_multiple_stocks_fixed_quotes
    (q : string → option float) tickers w :
  (∀ t, t ∈ tickers → ∀ w0, fst (get_current_price t w0) = Ok (q t)) →
  fst (get_multiple_stocks tickers w) =
  Ok (map (fun t => (t, q t)) (first_occurrences tickers)).
Proof.
  intros Hq. unfold get_multiple_stocks.
  rewrite (for_tickers_fixed q) by done.
  change PyDict.empty with (map (fun k => (k, q k)) []).
  rewrite foldl_setitem_tabulate. simpl. f_equal. f_equal.
  apply filter_all, Forall_forall. intros x _. apply not_elem_of_nil.
Qed.
End BatchEdges.

(** ** The demonstration script *)

Section ScriptFacts.
Context {P : Provider} {R : Rendering}.
Implicit Types (c : Console) (w : World) (out : list string).

Lemma banner_prints title c :
  banner title c =
  (Ok tt, mkConsole (world c) (stdout c ++ [newline +:+ rule; title; rule])).
Proof.
  unfold banner, sbind, print; simpl. by rewrite <- !app_assoc.
Qed.

Lemma run_result {A} (m : IO A) c :
  run m c = (fst (m (world c)), mkConsole (snd (m (world c))) (stdout c)).
Proof. unfold run. by destruct (m (world c)). Qed.

(** A loop whose body only prints: one entry per item, in order. *)
Lemma for_items_print {A} (items : list A) (body : A → Script unit)
    (text : A → string) c :
  (∀ x c0, body x c0 = print (text x) c0) →
  for_items items body c =
  (Ok tt, mkConsole (world c) (stdout c ++ map text items)).
Proof.
  intros Hbody. revert c. induction items as [|x items IH]; intros c; simpl.
  - unfold sret. destruct c. simpl. by rewrite app_nil_r.
  - unfold sbind. rewrite Hbody. unfold print at 1. rewrite IH. simpl.
    by rewrite <- app_assoc.
Qed.
Lemma truthy_float_falsy (x : float) :
  truthy_float x = false ↔ falsy (Some x).
Proof.
  unfold truthy_float, falsy. split.
  - intros Hx%negb_false_iff. right. by exists x.
  - intros [?|(y & [= <-] & Hy)]; [done|]. by rewrite Hy.
Qed.

Lemma string_app_inj (a b b' : string) : a +:+ b = a +:+ b' → b = b'.
Proof. induction a as [|ch a IH]; simpl; [done|]. intros [= ?]. by apply IH. Qed.

(** X14. The first part of the script prints its three opening lines
    and then one line, which is ["Unable to fetch price"] exactly when
    [get_current_price] gave no price or a price of zero: a quote of 0.0
    is shown like missing data. *)
Theorem single_stock_example_unable ticker w out price w' :
  get_current_price ticker w = (Ok price, w') →
  ∃ line,
    single_stock_example ticker (mkConsole w out) =
      (Ok tt, mkConsole w'
         (out ++ banner_lines ("Current Price for " +:+ ticker) ++ [line])) ∧
    (line = "Unable to fetch price" ↔ falsy price).
Proof.
  intros Hprice. unfold single_stock_example, sbind.
  rewrite banner_prints, run_result. simpl. rewrite Hprice. simpl.
  unfold print, banner_lines.
  destruct price as [x|]; [destruct (truthy_float x) eqn:Hx|];
    eexists; (split; [simpl; by rewrite <- app_assoc|]).
  - split; [done|]. intros Hf%truthy_float_falsy. congruence.
  - split; [|done]. intros _. by apply truthy_float_falsy.
  - split; [|done]. intros _. by left.
Qed.

(** X15. When the first fetch of the script fails, the script ends
    with that exception after the three opening lines of its first part:
    nothing else is printed and no other request is sent. *)
Theorem main_first_failure w out e w' :
  get_current_price "AAPL" w = (Raise e, w') →
  main (mkConsole w out) =
    (Raise e, mkConsole w' (out ++ banner_lines "Current Price for AAPL")).
Proof.
  intros Hfail. unfold main, single_stock_example, sbind.
  rewrite banner_prints, run_result. simpl. by rewrite Hfail.
Qed.

(** X16. The third part of the script asks the table for the five
    OHLCV columns: when the five-day table lacks one of them, the script
    ends there with a [KeyError], its opening lines printed and no
    table. *)
Theorem historical_data_missing_column ticker w out data w' label :
  get_historical_prices ticker (Some "5d") w = (Ok data, w') →
  label ∈ ohlcv →
  label ∉ columns data →
  ∃ message,
    historical_data ticker (mkConsole w out) =
      (Raise (KeyError message),
       mkConsole w'
         (out ++ banner_lines
                   ("Historical Prices (Last 5 Days) for " +:+ ticker))).
Proof.
  intros Hhist Hin Hnin. unfold historical_data, sbind.
  rewrite banner_prints, run_result. simpl. rewrite Hhist. simpl.
  unfold slift, df_getitem_list.
  destruct (filter (fun l => l ∉ columns data)
              ["Open"; "High"; "Low"; "Close"; "Volume"]) as [|l0 ls] eqn:Hf.
  - assert (Hl : label ∈ filter (fun l => l ∉ columns data) ohlcv)
      by (by apply list_elem_of_filter).
    unfold ohlcv in Hl. rewrite Hf in Hl. by apply elem_of_nil in Hl.
  - by eexists.
Qed.

(** X17. When the five-day table has the five OHLCV columns, the third
    part of the script prints one table after its opening lines: the rows
    of the provider's table in their order, cut down to the five columns,
    whatever other columns the provider sent. *)
Theorem historical_data_shown ticker w out data w' :
  get_historical_prices ticker (Some "5d") w = (Ok data, w') →
  is_ohlcv data →
  ∃ shown,
    historical_data ticker (mkConsole w out) =
      (Ok tt,
       mkConsole w'
         (out ++ banner_lines
                   ("Historical Prices (Last 5 Days) for " +:+ ticker)
              ++ [str_frame shown])) ∧
    columns shown = ohlcv ∧
    map row_index (rows shown) = map row_index (rows data) ∧
    Forall2 (fun r r' => ∀ label, label ∈ ohlcv → cell r' label = cell r label)
      (rows data) (rows shown).
Proof.
  intros Hhist Hcols. unfold historical_data, sbind.
  rewrite banner_prints, run_result. simpl. rewrite Hhist. simpl.
  unfold slift, df_getitem_list.
  assert (Hf : filter (fun l => l ∉ columns data)
                 ["Open"; "High"; "Low"; "Close"; "Volume"] = []).
  { destruct (filter _ _) as [|l0 ls] eqn:Hf; [done|].
    assert (Hl : l0 ∈ filter (fun l => l ∉ columns data) ohlcv)
      by (unfold ohlcv; rewrite Hf; left).
    apply list_elem_of_filter in Hl as [Hnin Hin]. by apply Hcols in Hin. }
  rewrite Hf. eexists. split.
  { unfold print, banner_lines; simpl. by rewrite <- !app_assoc. }
  simpl. split_and!; [done| |].
  - by rewrite map_map.
  - apply Forall2_fmap_r, Forall_Forall2_diag, Forall_forall.
    intros r _ label Hin. unfold ohlcv in Hin. unfold cell at 1. simpl.
    repeat (apply elem_of_cons in Hin as [->|Hin]; [reflexivity|]).
    by apply elem_of_nil in Hin.
Qed.
(** *** The requests of each part *)

Lemma single_stock_example_calls ticker c c' :
  single_stock_example ticker c = (Ok tt, c') →
  calls (world c') = calls (world c) ++ [HistoryCall ticker "1d"].
Proof.
  unfold single_stock_example, sbind.
  rewrite banner_prints, run_result. simpl.
  destruct (get_current_price ticker (world c)) as [[price|e] w1] eqn:Hrun;
    simpl; [|done].
  pose proof (get_current_price_calls _ _ _ _ Hrun) as Hc.
  destruct price as [x|]; [destruct (truthy_float x)|];
    by intros [= <-].
Qed.

Lemma detailed_stock_info_calls ticker c c' :
  detailed_stock_info ticker c = (Ok tt, c') →
  calls (world c') = calls (world c) ++ [InfoCall ticker].
Proof.
  unfold detailed_stock_info, sbind.
  rewrite banner_prints, run_result. simpl.
  destruct (get_stock_info ticker (world c)) as [[bag|e] w1] eqn:Hrun;
    simpl; [|done].
  pose proof (get_stock_info_calls _ _ _ _ Hrun) as Hc.
  rewrite (for_items_print bag _
             (fun kv => fst kv +:+ ": " +:+ str_value (snd kv)))
    by (by intros [key value] c0).
  by intros [= <-].
Qed.

Lemma historical_data_calls ticker c c' :
  historical_data ticker c = (Ok tt, c') →
  calls (world c') = calls (world c) ++ [HistoryCall ticker "5d"].
Proof.
  unfold historical_data, sbind.
  rewrite banner_prints, run_result. simpl.
  destruct (get_historical_prices ticker (Some "5d") (world c))
    as [[data|e] w1] eqn:Hrun; simpl; [|done].
  pose proof (get_historical_prices_calls _ _ _ _ _ Hrun) as Hc.
  unfold slift. destruct (df_getitem_list data _); [|done].
  by intros [= <-].
Qed.

(** The line of the last part for an entry of the mapping. *)
Lemma multiple_stocks_body (item : string * option float) c0 :
  (let '(ticker, price) := item in
   match price with
   | Some x =>
       if truthy_float x
       then print (ticker +:+ ": $" +:+ format_2f x)
       else print (ticker +:+ ": Unable to fetch price")
   | None => print (ticker +:+ ": Unable to fetch price")
   end) c0 =
  print (fst item +:+
         match snd item with
         | Some x =>
             if truthy_float x then ": $" +:+ format_2f x
             else ": Unable to fetch price"
         | None => ": Unable to fetch price"
         end) c0.
Proof.
  destruct item as [ticker [x|]]; simpl; [|done].
  by destruct (truthy_float x).
Qed.

Lemma multiple_stocks_calls tickers c c' :
  multiple_stocks tickers c = (Ok tt, c') →
  calls (world c') = calls (world c) ++ map quote_call tickers.
Proof.
  unfold multiple_stocks, sbind.
  rewrite banner_prints, run_result. simpl.
  destruct (get_multiple_stocks tickers (world c)) as [[prices|e] w1] eqn:Hrun;
    simpl; [|done].
  rewrite (for_items_print prices _ _ _ multiple_stocks_body).
  intros [= <-]. simpl. by apply (for_tickers_calls _ _ _ _ _ Hrun).
Qed.

(** X18. A run of the script that comes to its end has sent seven
    requests, in this order: the one-day history of AAPL, the info of
    AAPL, the five-day history of AAPL, and the one-day histories of AAPL,
    GOOGL, MSFT and TSLA.  AAPL is quoted twice. *)
Theorem main_requests c c' :
  main c = (Ok tt, c') →
  calls (world c') = calls (world c) ++ main_calls.
Proof.
  unfold main, sbind.
  destruct (single_stock_example "AAPL" c) as [[[]|e] c1] eqn:H1; [|done].
  destruct (detailed_stock_info "AAPL" c1) as [[[]|e] c2] eqn:H2; [|done].
  destruct (historical_data "AAPL" c2) as [[[]|e] c3] eqn:H3; [|done].
  intros H4.
  rewrite (multiple_stocks_calls _ _ _ H4), (historical_data_calls _ _ _ H3),
    (detailed_stock_info_calls _ _ _ H2),
    (single_stock_example_calls _ _ _ H1).
  by rewrite <- !app_assoc.
Qed.

(** X19. The last part of the script prints, after its opening lines,
    one line per entry of the batch's mapping, so one per distinct symbol
    in the order the list first names them; the line of a symbol is its
    ["Unable to fetch price"] line exactly when its price is missing or
    zero. *)
Theorem multiple_stocks_lines tickers w out prices w' :
  get_multiple_stocks tickers w = (Ok prices, w') →
  ∃ lines,
    multiple_stocks tickers (mkConsole w out) =
      (Ok tt,
       mkConsole w' (out ++ banner_lines "Multiple Stocks" ++ lines)) ∧
    map fst prices = first_occurrences tickers ∧
    Forall2 (fun item line =>
               line = fst item +:+ ": Unable to fetch price" ↔
               falsy (snd item))
      prices lines.
Proof.
  intros Hrun. unfold multiple_stocks, sbind.
  rewrite banner_prints, run_result. simpl. rewrite Hrun. simpl.
  rewrite (for_items_print prices _ _ _ multiple_stocks_body). simpl.
  eexists. split; [by rewrite <- app_assoc|]. split.
  - unfold get_multiple_stocks in Hrun.
    pose proof (for_tickers_keys _ _ _ _ _ Hrun) as Hkeys. simpl in Hkeys.
    rewrite filter_all in Hkeys
      by (apply Forall_forall; intros x _; apply not_elem_of_nil).
    exact Hkeys.
  - apply Forall2_fmap_r, Forall_Forall2_diag, Forall_forall.
    intros [t [x|]] _; simpl.
    + destruct (truthy_float x) eqn:Hx.
      * split; [intros Heq%string_app_inj; done|].
        intros Hf%truthy_float_falsy. congruence.
      * split; [|done]. intros _. by apply truthy_float_falsy.
    + split; [|done]. intros _. by left.
Qed.
End ScriptFacts.

(** ** The further properties at work on the scenarios *)

Lemma get_current_price_provider_failure_witness :
  yf_Ticker (P:=script_provider) "AAPL"
    (script_world [Raise (ProviderFailure "timeout")] []) =
    (Ok (mkTicker "AAPL"),
     script_world [Raise (ProviderFailure "timeout")] []) ∧
  history (P:=script_provider) (mkTicker "AAPL") "1d"
    (script_world [Raise (ProviderFailure "timeout")] []) =
    (Raise (ProviderFailure "timeout"),
     script_world [] [quote_call "AAPL"]) ∧
  get_current_price (P:=script_provider) "AAPL"
    (script_world [Raise (ProviderFailure "timeout")] []) =
    (Raise (ProviderFailure "timeout"),
     script_world [] [quote_call "AAPL"]).
Proof.
  split_and!; [reflexivity | reflexivity |].
  exact (get_current_price_provider_failure (P:=script_provider) "AAPL"
           (script_world [Raise (ProviderFailure "timeout")] [])
           (mkTicker "AAPL")
           (script_world [Raise (ProviderFailure "timeout")] [])
           (ProviderFailure "timeout") (script_world [] [quote_call "AAPL"])
           eq_refl eq_refl).
Defined.

Lemma open_only_no_close : "Close" ∉ columns open_only.
Proof. intros Hin%list_elem_of_singleton. discriminate. Qed.

Lemma get_current_price_no_close_witness :
  yf_Ticker (P:=script_provider) "AAPL" (script_world [Ok open_only] []) =
    (Ok (mkTicker "AAPL"), script_world [Ok open_only] []) ∧
  history (P:=script_provider) (mkTicker "AAPL") "1d"
    (script_world [Ok open_only] []) =
    (Ok open_only, script_world [] [quote_call "AAPL"]) ∧
  df_empty open_only = false ∧
  ("Close" ∉ columns open_only) ∧
  get_current_price (P:=script_provider) "AAPL"
    (script_world [Ok open_only] []) =
    (Raise (KeyError "Close"), script_world [] [quote_call "AAPL"]).
Proof.
  split_and!;
    [reflexivity | reflexivity | reflexivity | exact open_only_no_close |].
  exact (get_current_price_no_close (P:=script_provider) "AAPL"
           (script_world [Ok open_only] []) (mkTicker "AAPL")
           (script_world [Ok open_only] []) open_only
           (script_world [] [quote_call "AAPL"])
           eq_refl eq_refl eq_refl open_only_no_close).
Defined.

(** The empty name: the handle is refused, and the fetch raises with
    nothing sent, which is the first of the three cases. *)
Lemma get_current_price_raise_inv_witness :
  get_current_price (P:=script_provider) ""
    (script_world [Ok (one_day 10)] []) =
    (Raise (ValueError "Empty ticker name"),
     script_world [Ok (one_day 10)] []) ∧
  ((yf_Ticker (P:=script_provider) ""
      (script_world [Ok (one_day 10)] []) =
      (Raise (ValueError "Empty ticker name"),
       script_world [Ok (one_day 10)] []) ∧
    calls (script_world [Ok (one_day 10)] []) =
      calls (script_world [Ok (one_day 10)] [])) ∨
   ∃ stock w0,
     yf_Ticker (P:=script_provider) ""
       (script_world [Ok (one_day 10)] []) = (Ok stock, w0) ∧
     (history stock "1d" w0 =
        (Raise (ValueError "Empty ticker name"),
         script_world [Ok (one_day 10)] []) ∨
      ∃ data,
        history stock "1d" w0 =
          (Ok data, script_world [Ok (one_day 10)] []) ∧
        df_empty data = false ∧
        ("Close" ∉ columns data) ∧
        ValueError "Empty ticker name" = KeyError "Close")).
Proof.
  split; [reflexivity|].
  exact (get_current_price_raise_inv (P:=script_provider) ""
           (script_world [Ok (one_day 10)] [])
           (ValueError "Empty ticker name")
           (script_world [Ok (one_day 10)] []) eq_refl).
Defined.

Lemma get_current_price_none_iff_witness :
  yf_Ticker (P:=script_provider) "ZZZZ" (script_world [Ok no_data] []) =
    (Ok (mkTicker "ZZZZ"), script_world [Ok no_data] []) ∧
  history (P:=script_provider) (mkTicker "ZZZZ") "1d"
    (script_world [Ok no_data] []) =
    (Ok no_data, script_world [] [quote_call "ZZZZ"]) ∧
  (fst (get_current_price (P:=script_provider) "ZZZZ"
          (script_world [Ok no_data] [])) = Ok None ↔
   df_empty no_data = true).
Proof.
  split_and!; [reflexivity | reflexivity |].
  exact (get_current_price_none_iff (P:=script_provider) "ZZZZ"
           (script_world [Ok no_data] []) (mkTicker "ZZZZ")
           (script_world [Ok no_data] []) no_data
           (script_world [] [quote_call "ZZZZ"]) eq_refl eq_refl).
Defined.

Lemma get_current_price_one_request_witness :
  yf_Ticker (P:=script_provider) "AAPL"
    (script_world [Raise (ProviderFailure "timeout"); Ok (one_day 12)] []) =
    (Ok (mkTicker "AAPL"),
     script_world [Raise (ProviderFailure "timeout"); Ok (one_day 12)] []) ∧
  get_current_price (P:=script_provider) "AAPL"
    (script_world [Raise (ProviderFailure "timeout"); Ok (one_day 12)] []) =
    (Raise (ProviderFailure "timeout"),
     script_world [Ok (one_day 12)] [HistoryCall "AAPL" "1d"]) ∧
  calls (snd (get_current_price (P:=script_provider) "AAPL"
                (script_world
                   [Raise (ProviderFailure "timeout"); Ok (one_day 12)]
                   []))) =
    [] ++ [HistoryCall "AAPL" "1d"].
Proof.
  split_and!; [reflexivity | reflexivity |].
  exact (proj1 (get_current_price_one_request (P:=script_provider) "AAPL"
                  (script_world
                     [Raise (ProviderFailure "timeout"); Ok (one_day 12)] [])
                  (mkTicker "AAPL")
                  (script_world
                     [Raise (ProviderFailure "timeout"); Ok (one_day 12)] [])
                  eq_refl)).
Defined.

Lemma get_current_price_of_history_witness :
  get_historical_prices (P:=script_provider) "AAPL" (Some "1d")
    (script_world [Ok (one_day 10)] []) =
    (Ok (one_day 10), script_world [] [quote_call "AAPL"]) ∧
  "Close" ∈ columns (one_day 10) ∧
  last_record (one_day 10) = Some (day 0%Z 10 10 10 10 1000%float) ∧
  get_current_price (P:=script_provider) "AAPL"
    (script_world [Ok (one_day 10)] []) =
    (Ok (Some 10%float), script_world [] [quote_call "AAPL"]).
Proof.
  assert (Hcol : "Close" ∈ columns (one_day 10)) by (do 3 right; left).
  split_and!; [reflexivity | exact Hcol | reflexivity |].
  exact (get_current_price_of_history (P:=script_provider) "AAPL"
           (script_world [Ok (one_day 10)] []) (one_day 10)
           (script_world [] [quote_call "AAPL"])
           (day 0%Z 10 10 10 10 1000%float) eq_refl Hcol eq_refl).
Defined.

(** A period outside the documented tokens goes out as it is. *)
Lemma get_historical_prices_one_request_witness :
  yf_Ticker (P:=period_provider) "AAPL" (period_world []) =
    (Ok (mkTicker "AAPL"), period_world []) ∧
  calls (snd (get_historical_prices (P:=period_provider) "AAPL"
                (Some "fortnight") (period_world []))) =
    [] ++ [HistoryCall "AAPL" "fortnight"].
Proof.
  split; [reflexivity|].
  exact (proj1 (get_historical_prices_one_request (P:=period_provider)
                  "AAPL" "fortnight" (period_world []) (mkTicker "AAPL")
                  (period_world []) eq_refl)).
Defined.

Lemma get_stock_info_one_request_witness :
  yf_Ticker (P:=script_provider) "AAPL" (script_world [Ok no_data] []) =
    (Ok (mkTicker "AAPL"), script_world [Ok no_data] []) ∧
  get_stock_info (P:=script_provider) "AAPL" (script_world [Ok no_data] []) =
    (Raise (ProviderFailure "no info"),
     script_world [Ok no_data] [InfoCall "AAPL"]) ∧
  calls (snd (get_stock_info (P:=script_provider) "AAPL"
                (script_world [Ok no_data] []))) =
    [] ++ [InfoCall "AAPL"].
Proof.
  split_and!; [reflexivity | reflexivity |].
  exact (proj1 (get_stock_info_one_request (P:=script_provider) "AAPL"
                  (script_world [Ok no_data] []) (mkTicker "AAPL")
                  (script_world [Ok no_data] []) eq_refl)).
Defined.

Lemma apple_bags_agree key field :
  (key, field) ∈ provider_fields →
  PyDict.lookup apple_bag field = PyDict.lookup apple_bag_more field.
Proof.
  intros Hin. unfold provider_fields in Hin.
  repeat (apply elem_of_cons in Hin as [[= -> ->]|Hin]; [reflexivity|]).
  by apply elem_of_nil in Hin.
Qed.

Lemma get_stock_info_projection_witness :
  yf_Ticker (P:=bag_provider) "AAPL" (bag_world apple_bag []) =
    (Ok (mkTicker "AAPL"), bag_world apple_bag []) ∧
  info (P:=bag_provider) (mkTicker "AAPL") (bag_world apple_bag []) =
    (Ok apple_bag, bag_world apple_bag [InfoCall "AAPL"]) ∧
  yf_Ticker (P:=bag_provider) "AAPL" (bag_world apple_bag_more []) =
    (Ok (mkTicker "AAPL"), bag_world apple_bag_more []) ∧
  info (P:=bag_provider) (mkTicker "AAPL") (bag_world apple_bag_more []) =
    (Ok apple_bag_more, bag_world apple_bag_more [InfoCall "AAPL"]) ∧
  fst (get_stock_info (P:=bag_provider) "AAPL" (bag_world apple_bag [])) =
  fst (get_stock_info (P:=bag_provider) "AAPL" (bag_world apple_bag_more [])).
Proof.
  split_and!; [reflexivity | reflexivity | reflexivity | reflexivity |].
  exact (get_stock_info_projection (P:=bag_provider) "AAPL"
           (bag_world apple_bag []) (mkTicker "AAPL") (bag_world apple_bag [])
           apple_bag (bag_world apple_bag [InfoCall "AAPL"])
           (bag_world apple_bag_more []) (mkTicker "AAPL")
           (bag_world apple_bag_more []) apple_bag_more
           (bag_world apple_bag_more [InfoCall "AAPL"])
           eq_refl eq_refl eq_refl eq_refl apple_bags_agree).
Defined.

Lemma refused_ticker_no_query_witness :
  yf_Ticker (P:=apple_provider) "" (apple_world []) =
    (Raise (ValueError "Empty ticker name"), apple_world []) ∧
  get_current_price (P:=apple_provider) "" (apple_world []) =
    (Raise (ValueError "Empty ticker name"), apple_world []) ∧
  get_historical_prices (P:=apple_provider) "" (Some "5d") (apple_world []) =
    (Raise (ValueError "Empty ticker name"), apple_world []) ∧
  get_stock_info (P:=apple_provider) "" (apple_world []) =
    (Raise (ValueError "Empty ticker name"), apple_world []) ∧
  calls (apple_world []) = calls (apple_world []).
Proof.
  split; [reflexivity|].
  exact (refused_ticker_no_query (P:=apple_provider) "" (Some "5d")
           (apple_world []) (ValueError "Empty ticker name")
           (apple_world []) eq_refl).
Defined.

(** A batch whose second symbol is the empty name: the quote of AAPL is
    asked for, the handle of the empty name is refused, and TSLA is never
    reached. *)
Lemma get_multiple_stocks_first_failure_witness :
  get_multiple_stocks (P:=script_provider) ["AAPL"; ""; "TSLA"]
    (script_world quotes_10_12 []) =
    (Raise (ValueError "Empty ticker name"),
     script_world [Ok (one_day 12)] [quote_call "AAPL"]) ∧
  ∃ pre t post d w1,
    ["AAPL"; ""; "TSLA"] = pre ++ t :: post ∧
    get_multiple_stocks (P:=script_provider) pre
      (script_world quotes_10_12 []) = (Ok d, w1) ∧
    get_current_price (P:=script_provider) t w1 =
      (Raise (ValueError "Empty ticker name"),
       script_world [Ok (one_day 12)] [quote_call "AAPL"]) ∧
    calls w1 = [] ++ map quote_call pre ∧
    ((yf_Ticker (P:=script_provider) t w1 =
        (Raise (ValueError "Empty ticker name"),
         script_world [Ok (one_day 12)] [quote_call "AAPL"]) ∧
      [quote_call "AAPL"] = calls w1) ∨
     (∃ stock w0,
        yf_Ticker (P:=script_provider) t w1 = (Ok stock, w0) ∧
        [quote_call "AAPL"] = calls w1 ++ [quote_call t])).
Proof.
  split; [reflexivity|].
  exact (get_multiple_stocks_first_failure (P:=script_provider)
           ["AAPL"; ""; "TSLA"] (script_world quotes_10_12 [])
           (ValueError "Empty ticker name")
           (script_world [Ok (one_day 12)] [quote_call "AAPL"])
           eq_refl).
Defined.

Lemma get_multiple_stocks_app_witness :
  get_multiple_stocks (P:=script_provider) ["AAPL"; "ZZZZ"]
    (script_world quotes_10_none_12 []) =
    (Ok [("AAPL", Some 10%float); ("ZZZZ", None)],
     script_world [Ok (one_day 12)] [quote_call "AAPL"; quote_call "ZZZZ"]) ∧
  get_multiple_stocks (P:=script_provider) ["AAPL"]
    (script_world [Ok (one_day 12)] [quote_call "AAPL"; quote_call "ZZZZ"]) =
    (Ok [("AAPL", Some 12%float)],
     script_world []
       [quote_call "AAPL"; quote_call "ZZZZ"; quote_call "AAPL"]) ∧
  get_multiple_stocks (P:=script_provider) (["AAPL"; "ZZZZ"] ++ ["AAPL"])
    (script_world quotes_10_none_12 []) =
    (Ok (dict_update [("AAPL", Some 10%float); ("ZZZZ", None)]
           [("AAPL", Some 12%float)]),
     script_world []
       [quote_call "AAPL"; quote_call "ZZZZ"; quote_call "AAPL"]) ∧
  dict_update [("AAPL", Some 10%float); ("ZZZZ", @None float)]
    [("AAPL", Some 12%float)] =
    [("AAPL", Some 12%float); ("ZZZZ", None)].
Proof.
  split_and!; [reflexivity | reflexivity | | reflexivity].
  exact (get_multiple_stocks_app (P:=script_provider)
           ["AAPL"; "ZZZZ"] ["AAPL"] (script_world quotes_10_none_12 [])
           [("AAPL", Some 10%float); ("ZZZZ", None)]
           (script_world [Ok (one_day 12)]
              [quote_call "AAPL"; quote_call "ZZZZ"])
           [("AAPL", Some 12%float)]
           (script_world []
              [quote_call "AAPL"; quote_call "ZZZZ"; quote_call "AAPL"])
           eq_refl eq_refl).
Defined.

Lemma get_multiple_stocks_size_witness :
  get_multiple_stocks (P:=script_provider) ["AAPL"; "ZZZZ"; "AAPL"]
    (script_world quotes_10_none_12 []) =
    (Ok [("AAPL", Some 12%float); ("ZZZZ", None)],
     script_world []
       [quote_call "AAPL"; quote_call "ZZZZ"; quote_call "AAPL"]) ∧
  length [("AAPL", Some 12%float); ("ZZZZ", @None float)] ≤
    length ["AAPL"; "ZZZZ"; "AAPL"] ∧
  (length [("AAPL", Some 12%float); ("ZZZZ", @None float)] =
     length ["AAPL"; "ZZZZ"; "AAPL"] ↔
   NoDup ["AAPL"; "ZZZZ"; "AAPL"]).
Proof.
  split; [reflexivity|].
  exact (get_multiple_stocks_size (P:=script_provider)
           ["AAPL"; "ZZZZ"; "AAPL"] (script_world quotes_10_none_12 [])
           [("AAPL", Some 12%float); ("ZZZZ", None)]
           (script_world []
              [quote_call "AAPL"; quote_call "ZZZZ"; quote_call "AAPL"])
           eq_refl).
Defined.

Lemma apple_quotes_fixed t (w0 : World (P:=apple_provider)) :
  t ≠ "" →
  fst (get_current_price (P:=apple_provider) t w0) = Ok (fixed_quote t).
Proof.
  intros Hname. rewrite get_current_price_history.
  unfold yf_Ticker, history, fixed_quote; simpl. unfold check_name.
  destruct (String.eqb_spec t "") as [->|_]; [done|]. simpl.
  unfold quote_table.
  destruct (String.eqb t "AAPL"); [done|].
  by destruct (String.eqb t "MSFT").
Qed.

Lemma listed_names t :
  t ∈ ["MSFT"; "AAPL"; "MSFT"; "ZZZZ"] → t ≠ "".
Proof.
  intros Hin ->.
  repeat (apply elem_of_cons in Hin as [Hin|Hin]; [discriminate|]).
  by apply elem_of_nil in Hin.
Qed.

Lemma get_multiple_stocks_fixed_quotes_witness :
  (∀ t, t ∈ ["MSFT"; "AAPL"; "MSFT"; "ZZZZ"] →
     ∀ w0, fst (get_current_price (P:=apple_provider) t w0) =
           Ok (fixed_quote t)) ∧
  fst (get_multiple_stocks (P:=apple_provider)
         ["MSFT"; "AAPL"; "MSFT"; "ZZZZ"] (apple_world [])) =
  Ok [("MSFT", Some 12%float); ("AAPL", Some 10%float); ("ZZZZ", None)].
Proof.
  split; [intros t Hin w0; by apply apple_quotes_fixed, listed_names|].
  exact (get_multiple_stocks_fixed_quotes (P:=apple_provider) fixed_quote
           ["MSFT"; "AAPL"; "MSFT"; "ZZZZ"] (apple_world [])
           (fun t Hin w0 => apple_quotes_fixed t w0 (listed_names t Hin))).
Defined.

Lemma single_stock_example_unable_witness :
  get_current_price (P:=script_provider) "AAPL"
    (script_world [Ok (one_day 0)] []) =
    (Ok (Some 0%float), script_world [] [quote_call "AAPL"]) ∧
  falsy (Some 0%float) ∧
  single_stock_example (P:=script_provider) (R:=plain_rendering) "AAPL"
    (script_console [Ok (one_day 0)] [] []) =
    (Ok tt,
     script_console [] [quote_call "AAPL"]
       (banner_lines "Current Price for AAPL" ++ ["Unable to fetch price"])).
Proof.
  assert (Hzero : falsy (Some 0%float))
    by (right; exists 0%float; split; reflexivity).
  split_and!; [reflexivity | exact Hzero |].
  destruct (single_stock_example_unable (P:=script_provider)
              (R:=plain_rendering) "AAPL"
              (script_world [Ok (one_day 0)] []) [] (Some 0%float)
              (script_world [] [quote_call "AAPL"]) eq_refl)
    as (line & Hrun & Hline).
  rewrite (proj2 Hline Hzero) in Hrun. exact Hrun.
Defined.

Lemma main_first_failure_witness :
  get_current_price (P:=script_provider) "AAPL"
    (script_world [Raise (ProviderFailure "timeout")] []) =
    (Raise (ProviderFailure "timeout"),
     script_world [] [quote_call "AAPL"]) ∧
  main (P:=script_provider) (R:=plain_rendering)
    (script_console [Raise (ProviderFailure "timeout")] [] []) =
    (Raise (ProviderFailure "timeout"),
     script_console [] [quote_call "AAPL"]
       (banner_lines "Current Price for AAPL")).
Proof.
  split; [reflexivity|].
  exact (main_first_failure (P:=script_provider) (R:=plain_rendering)
           (script_world [Raise (ProviderFailure "timeout")] []) []
           (ProviderFailure "timeout")
           (script_world [] [quote_call "AAPL"]) eq_refl).
Defined.

Lemma historical_data_missing_column_witness :
  get_historical_prices (P:=script_provider) "AAPL" (Some "5d")
    (script_world [Ok open_only] []) =
    (Ok open_only, script_world [] [HistoryCall "AAPL" "5d"]) ∧
  "Close" ∈ ohlcv ∧
  ("Close" ∉ columns open_only) ∧
  ∃ message,
    historical_data (P:=script_provider) (R:=plain_rendering) "AAPL"
      (script_console [Ok open_only] [] []) =
      (Raise (KeyError message),
       script_console [] [HistoryCall "AAPL" "5d"]
         ([] ++ banner_lines "Historical Prices (Last 5 Days) for AAPL")).
Proof.
  assert (Hin : "Close" ∈ ohlcv) by (do 3 right; left).
  split_and!; [reflexivity | exact Hin | exact open_only_no_close |].
  exact (historical_data_missing_column (P:=script_provider)
           (R:=plain_rendering) "AAPL" (script_world [Ok open_only] []) []
           open_only (script_world [] [HistoryCall "AAPL" "5d"]) "Close"
           eq_refl Hin open_only_no_close).
Defined.

Lemma historical_data_shown_witness :
  get_historical_prices (P:=script_provider) "AAPL" (Some "5d")
    (script_world [Ok five_days] []) =
    (Ok five_days, script_world [] [HistoryCall "AAPL" "5d"]) ∧
  is_ohlcv five_days ∧
  fst (historical_data (P:=script_provider) (R:=plain_rendering) "AAPL"
         (script_console [Ok five_days] [] [])) = Ok tt.
Proof.
  assert (Hcols : is_ohlcv five_days) by (intros label Hl; exact Hl).
  split_and!; [reflexivity | exact Hcols |].
  destruct (historical_data_shown (P:=script_provider) (R:=plain_rendering)
              "AAPL" (script_world [Ok five_days] []) [] five_days
              (script_world [] [HistoryCall "AAPL" "5d"]) eq_refl Hcols)
    as (shown & Hrun & _).
  unfold script_console. rewrite Hrun. reflexivity.
Defined.

Lemma main_requests_witness :
  fst (main (P:=apple_provider) (R:=plain_rendering) (apple_console [] [])) =
    Ok tt ∧
  calls (world (snd (main (P:=apple_provider) (R:=plain_rendering)
                       (apple_console [] [])))) =
    [] ++ main_calls.
Proof.
  split; [vm_compute; reflexivity|].
  apply (main_requests (P:=apple_provider) (R:=plain_rendering)
           (apple_console [] [])).
  vm_compute. reflexivity.
Defined.

Lemma multiple_stocks_lines_witness :
  get_multiple_stocks (P:=apple_provider) ["AAPL"; "ZZZZ"; "AAPL"]
    (apple_world []) =
    (Ok [("AAPL", Some 10%float); ("ZZZZ", None)],
     apple_world (map quote_call ["AAPL"; "ZZZZ"; "AAPL"])) ∧
  ∃ lines,
    multiple_stocks (P:=apple_provider) (R:=plain_rendering)
      ["AAPL"; "ZZZZ"; "AAPL"] (apple_console [] []) =
      (Ok tt,
       apple_console (map quote_call ["AAPL"; "ZZZZ"; "AAPL"])
         ([] ++ banner_lines "Multiple Stocks" ++ lines)) ∧
    length lines = 2.
Proof.
  split; [reflexivity|].
  destruct (multiple_stocks_lines (P:=apple_provider) (R:=plain_rendering)
              ["AAPL"; "ZZZZ"; "AAPL"] (apple_world []) []
              [("AAPL", Some 10%float); ("ZZZZ", None)]
              (apple_world (map quote_call ["AAPL"; "ZZZZ"; "AAPL"]))
              eq_refl) as (lines & Hrun & _ & Hlines).
  exists lines. split; [exact Hrun|].
  by rewrite <- (Forall2_length _ _ _ Hlines).
Defined.
